(** * Student expense tracker: the expense screen

    A shallow embedding of [src/ExpenseScreen.js] (the [ExpenseScreen]
    component: [loadExpenses], [getFilteredExpenses], [addExpense],
    [deleteExpense] and the mount-time [setup]) together with the parts of the
    JavaScript run time and of the SQLite store the component relies on:

    - strings are sequences of UTF-16 code units, [trim] and [parseFloat]
      follow ECMAScript;
    - a Number is an IEEE binary64 value ([SpecFloat]);
    - a Date holds a time value, milliseconds since the epoch or NaN; the
      calendar functions ([Day], [YearFromTime], [MakeDay], ...) and the
      local-time adjustment follow ECMAScript, with the time zone as a
      parameter;
    - the store is the [expenses] table: rows in rowid order and the
      AUTOINCREMENT counter. *)

From Stdlib Require Import String Ascii.
From Stdlib Require Import ZArith List Bool Lia.
From Stdlib Require Import Permutation Sorted.
From Stdlib Require Import SpecFloat.
Import ListNotations.
Open Scope Z_scope.

(** ** JavaScript strings *)

Module JS.

(** A string value is a sequence of 16-bit code units. *)
Definition jsstring := list Z.

(** String literals of the source, written as Rocq strings. *)
Definition js (s : string) : jsstring :=
  map (fun a => Z.of_N (N_of_ascii a)) (list_ascii_of_string s).

Definition str_eqb (a b : jsstring) : bool :=
  if list_eq_dec Z.eq_dec a b then true else false.

(** WhiteSpace and LineTerminator code points, the set that [trim] and
    [parseFloat] strip. *)
Definition isWhiteSpace (c : Z) : bool :=
  (c =? 9) || (c =? 10) || (c =? 11) || (c =? 12) || (c =? 13) || (c =? 32)
  || (c =? 160) || (c =? 5760) || ((8192 <=? c) && (c <=? 8202))
  || (c =? 8232) || (c =? 8233) || (c =? 8239) || (c =? 8287)
  || (c =? 12288) || (c =? 65279).

Fixpoint trimStart (s : jsstring) : jsstring :=
  match s with
  | [] => []
  | c :: s' => if isWhiteSpace c then trimStart s' else s
  end.

Definition trimEnd (s : jsstring) : jsstring := rev (trimStart (rev s)).

(** [String.prototype.trim] *)
Definition trim (s : jsstring) : jsstring := trimEnd (trimStart s).

(** ToBoolean on a string: only the empty string is falsy. *)
Definition truthy (s : jsstring) : bool :=
  match s with [] => false | _ => true end.

(** ** Numbers *)

Definition Number := spec_float.

Definition prec : Z := 53.
Definition emax : Z := 1024.

Definition isNaN (x : Number) : bool :=
  match x with S754_nan => true | _ => false end.

Definition zero : Number := S754_zero false.

(** [x <= y] and [x > y] on Numbers; both are false when an operand is NaN. *)
Definition num_leb (x y : Number) : bool := SFleb x y.
Definition num_gtb (x y : Number) : bool := SFltb y x.

(** The Number nearest to [m * 10^e] (ties to even), signed by [neg]. *)
Definition number_of_decimal (neg : bool) (m e : Z) : Number :=
  match m with
  | Z0 => S754_zero neg
  | Zpos p =>
      if 0 <=? e
      then binary_round prec emax neg (Z.to_pos (Zpos p * 10 ^ e)) 0
      else
        let '(q, e', l) :=
          SFdiv_core_binary prec emax (Zpos p) 0 (10 ^ (- e)) 0 in
        binary_round_aux prec emax neg q e' l
  | Zneg _ => S754_nan
  end.

Definition isDigit (c : Z) : bool := (48 <=? c) && (c <=? 57).

(** Longest run of decimal digits at the front: their values, and the rest. *)
Fixpoint takeDigits (s : jsstring) : list Z * jsstring :=
  match s with
  | [] => ([], [])
  | c :: s' =>
      if isDigit c
      then let '(ds, r) := takeDigits s' in (c - 48 :: ds, r)
      else ([], s)
  end.

Definition digitsValue (ds : list Z) : Z :=
  fold_left (fun acc d => acc * 10 + d) ds 0.

Fixpoint startsWith (p s : jsstring) : bool :=
  match p, s with
  | [], _ => true
  | a :: p', b :: s' => (a =? b) && startsWith p' s'
  | _ :: _, [] => false
  end.

(** ExponentPart, when one is present at the front of [s]; otherwise the
    literal ends before it and the exponent is 0. *)
Definition exponentPart (s : jsstring) : Z :=
  match s with
  | c :: r =>
      if (c =? 101) || (c =? 69) then
        match r with
        | sg :: r' =>
            if sg =? 43 then
              match takeDigits r' with
              | ([], _) => 0
              | (ds, _) => digitsValue ds
              end
            else if sg =? 45 then
              match takeDigits r' with
              | ([], _) => 0
              | (ds, _) => - digitsValue ds
              end
            else
              match takeDigits r with
              | ([], _) => 0
              | (ds, _) => digitsValue ds
              end
        | [] => 0
        end
      else 0
  | [] => 0
  end.

(** The longest prefix of [s] that is a StrUnsignedDecimalLiteral, as a
    Number; NaN when no prefix is one. *)
Definition parseUnsigned (neg : bool) (s : jsstring) : Number :=
  if startsWith (js "Infinity") s then S754_infinity neg
  else
    let '(ip, r1) := takeDigits s in
    let '(fp, r3) :=
      match r1 with
      | c :: r2 => if c =? 46 then takeDigits r2 else ([], r1)
      | [] => ([], r1)
      end in
    match ip, fp with
    | [], [] => S754_nan
    | _, _ =>
        number_of_decimal neg (digitsValue (ip ++ fp))
          (exponentPart r3 - Z.of_nat (List.length fp))
    end.

(** [parseFloat]: leading white space is skipped, then an optional sign. *)
Definition parseFloat (s : jsstring) : Number :=
  match trimStart s with
  | c :: r =>
      if c =? 43 then parseUnsigned false r
      else if c =? 45 then parseUnsigned true r
      else parseUnsigned false (c :: r)
  | [] => S754_nan
  end.

End JS.

Import JS.

(** ** Time values and the calendar (ECMAScript, Date objects) *)

Module DateTime.

Definition msPerDay : Z := 86400000.

Definition Day (t : Z) : Z := t / msPerDay.
Definition TimeWithinDay (t : Z) : Z := t mod msPerDay.

Definition DaysInYear (y : Z) : Z :=
  if negb (y mod 4 =? 0) then 365
  else if negb (y mod 100 =? 0) then 366
  else if negb (y mod 400 =? 0) then 365
  else 366.

Definition DayFromYear (y : Z) : Z :=
  365 * (y - 1970) + (y - 1969) / 4 - (y - 1901) / 100 + (y - 1601) / 400.

Definition TimeFromYear (y : Z) : Z := msPerDay * DayFromYear y.

(** The largest year [y] with [TimeFromYear y <= t]: the mean-year estimate,
    corrected by at most one year. *)
Definition YearFromTime (t : Z) : Z :=
  let d := Day t in
  let y := 1970 + (d * 400) / 146097 in
  if d <? DayFromYear y then y - 1
  else if DayFromYear (y + 1) <=? d then y + 1
  else y.

Definition InLeapYear (t : Z) : Z :=
  if DaysInYear (YearFromTime t) =? 366 then 1 else 0.

Definition DayWithinYear (t : Z) : Z := Day t - DayFromYear (YearFromTime t).

(** Day within the year of the first day of month [m] (0 = January). *)
Definition monthStart (m leap : Z) : Z :=
  if m =? 0 then 0
  else if m =? 1 then 31
  else if m =? 2 then 59 + leap
  else if m =? 3 then 90 + leap
  else if m =? 4 then 120 + leap
  else if m =? 5 then 151 + leap
  else if m =? 6 then 181 + leap
  else if m =? 7 then 212 + leap
  else if m =? 8 then 243 + leap
  else if m =? 9 then 273 + leap
  else if m =? 10 then 304 + leap
  else 334 + leap.

Definition MonthFromTime (t : Z) : Z :=
  let d := DayWithinYear t in
  let leap := InLeapYear t in
  if d <? 31 then 0
  else if d <? 59 + leap then 1
  else if d <? 90 + leap then 2
  else if d <? 120 + leap then 3
  else if d <? 151 + leap then 4
  else if d <? 181 + leap then 5
  else if d <? 212 + leap then 6
  else if d <? 243 + leap then 7
  else if d <? 273 + leap then 8
  else if d <? 304 + leap then 9
  else if d <? 334 + leap then 10
  else 11.

Definition DateFromTime (t : Z) : Z :=
  DayWithinYear t - monthStart (MonthFromTime t) (InLeapYear t) + 1.

Definition HourFromTime (t : Z) : Z := (t / 3600000) mod 24.
Definition MinFromTime (t : Z) : Z := (t / 60000) mod 60.
Definition SecFromTime (t : Z) : Z := (t / 1000) mod 60.
Definition msFromTime (t : Z) : Z := t mod 1000.

(** [MakeDay]: the day number of day [date] of month [month] of [year];
    months outside 0..11 carry into the year, and [date] is not bounded by
    the length of the month. *)
Definition MakeDay (year month date : Z) : Z :=
  let ym := year + month / 12 in
  let mn := month mod 12 in
  let leap := if DaysInYear ym =? 366 then 1 else 0 in
  DayFromYear ym + monthStart mn leap + date - 1.

Definition MakeDate (day time : Z) : Z := day * msPerDay + time.

(** The number of days of month [m] (0 = January). *)
Definition DaysInMonth (m leap : Z) : Z :=
  (if m =? 11 then 365 + leap else monthStart (m + 1) leap)
  - monthStart m leap.

(** A time value: [None] is NaN (an invalid Date). *)
Definition timevalue := option Z.

Definition maxTime : Z := 8640000000000000.

Definition TimeClip (t : Z) : timevalue :=
  if Z.abs t <=? maxTime then Some t else None.

(** [a >= b] on the time values of two Dates: false when either is NaN. *)
Definition date_geb (a b : timevalue) : bool :=
  match a, b with
  | Some x, Some y => y <=? x
  | _, _ => false
  end.

(** A number read off a Date ([getDate], [getMonth]) minus a constant. *)
Definition num_sub (a : option Z) (k : Z) : option Z :=
  match a with Some x => Some (x - k) | None => None end.

End DateTime.

Import DateTime.

(** ** Date strings *)

Module DateString.

(** [n] as [w] decimal digits, most significant first (padded with zeros). *)
Fixpoint padDigits (w : nat) (n : Z) : jsstring :=
  match w with
  | O => []
  | S w' => padDigits w' (n / 10) ++ [48 + n mod 10]
  end.

(** The year of the ISO format: four digits for 0..9999, otherwise a sign
    and six digits. *)
Definition isoYear (y : Z) : jsstring :=
  if (0 <=? y) && (y <=? 9999) then padDigits 4 y
  else (if y <? 0 then 45 else 43) :: padDigits 6 (Z.abs y).

Definition isoDatePart (t : Z) : jsstring :=
  isoYear (YearFromTime t) ++ [45] ++ padDigits 2 (MonthFromTime t + 1)
  ++ [45] ++ padDigits 2 (DateFromTime t).

Definition isoTimePart (t : Z) : jsstring :=
  padDigits 2 (HourFromTime t) ++ [58] ++ padDigits 2 (MinFromTime t)
  ++ [58] ++ padDigits 2 (SecFromTime t) ++ [46] ++ padDigits 3 (msFromTime t).

(** [Date.prototype.toISOString] of a Date with the (valid) time value [t]:
    YYYY-MM-DDTHH:mm:ss.sssZ, in UTC. *)
Definition toISOString (t : Z) : jsstring :=
  isoDatePart t ++ [84] ++ isoTimePart t ++ [90].

(** [String.prototype.split] with a separator of one code unit. *)
Fixpoint split (sep : Z) (s : jsstring) : list jsstring :=
  match s with
  | [] => [[]]
  | c :: s' =>
      if c =? sep then [] :: split sep s'
      else
        match split sep s' with
        | h :: tl => (c :: h) :: tl
        | [] => [[c]]
        end
  end.

(** [new Date().toISOString().split('T')[0]] when the clock reads [now]. *)
Definition todayString (now : Z) : jsstring :=
  hd [] (split 84 (toISOString now)).

(** Exactly [n] decimal digits at the front of [s]: their value (on top of
    [acc]) and the rest. *)
Fixpoint readDigits (n : nat) (acc : Z) (s : jsstring)
  : option (Z * jsstring) :=
  match n with
  | O => Some (acc, s)
  | S n' =>
      match s with
      | c :: s' =>
          if isDigit c then readDigits n' (acc * 10 + (c - 48)) s' else None
      | [] => None
      end
  end.

(** A code unit [c] at the front of [s]. *)
Definition expect (c : Z) (s : jsstring) : option jsstring :=
  match s with
  | x :: r => if x =? c then Some r else None
  | [] => None
  end.

(** The year of a date string: YYYY, or an expanded year, a sign and six
    digits.  The flag tells the illegal year -000000. *)
Definition readYear (s : jsstring) : option (bool * Z * jsstring) :=
  match s with
  | c :: r =>
      if c =? 43 then
        match readDigits 6 0 r with
        | Some (y, r') => Some (true, y, r')
        | None => None
        end
      else if c =? 45 then
        match readDigits 6 0 r with
        | Some (y, r') => Some (negb (y =? 0), - y, r')
        | None => None
        end
      else
        match readDigits 4 0 s with
        | Some (y, r') => Some (true, y, r')
        | None => None
        end
  | [] => None
  end.

(** The date-only form YYYY-MM-DD of the Date Time String Format, read as
    UTC midnight.  [None]: the string is not of that form.  [Some None]: it
    is, with a field out of bounds (month 01..12, day 01..31), so it is
    NaN.  A day beyond the end of its month carries over, as [MakeDay]
    does. *)
Definition parseISODateOnly (s : jsstring) : option timevalue :=
  match readYear s with
  | Some (legalYear, y, r1) =>
      match expect 45 r1 with
      | Some r2 =>
          match readDigits 2 0 r2 with
          | Some (m, r3) =>
              match expect 45 r3 with
              | Some r4 =>
                  match readDigits 2 0 r4 with
                  | Some (d, []) =>
                      if legalYear && (1 <=? m) && (m <=? 12)
                         && (1 <=? d) && (d <=? 31)
                      then Some (TimeClip (MakeDate (MakeDay y (m - 1) d) 0))
                      else Some None
                  | _ => None
                  end
              | None => None
              end
          | None => None
          end
      | None => None
      end
  | None => None
  end.

(** Text comparison of the store (ORDER BY on a TEXT column): lexicographic
    on the code units; on the ASCII dates the application stores this is the
    byte order SQLite uses. *)
Fixpoint str_ltb (a b : jsstring) : bool :=
  match a, b with
  | [], [] => false
  | [], _ :: _ => true
  | _ :: _, [] => false
  | x :: a', y :: b' => (x <? y) || ((x =? y) && str_ltb a' b')
  end.

End DateString.

Import DateString.

(** ** The store: table [expenses] *)

Module Store.

(** expenses(id INTEGER PRIMARY KEY AUTOINCREMENT, amount REAL NOT NULL,
    category TEXT NOT NULL, note TEXT, date TEXT NOT NULL) *)
Record Row := mkRow {
  id : Z;
  amount : Number;
  category : jsstring;
  note : option jsstring;
  date : jsstring
}.

(** The table: its rows in rowid order, and the AUTOINCREMENT counter (the
    largest rowid ever used, kept in sqlite_sequence). *)
Record Table := mkTable {
  rows : list Row;
  seq : Z
}.

(** The database: [None] when the table does not exist. *)
Definition DB := option Table.

Inductive result (A : Type) : Type :=
| Ok (a : A)
| Err (message : jsstring).
Arguments Ok {A} a.
Arguments Err {A} message.

Definition bind {A B} (r : result A) (k : A -> result B) : result B :=
  match r with
  | Ok a => k a
  | Err m => Err m
  end.

Notation "x <- c ;; k" := (bind c (fun x => k))
  (at level 61, c at next level, right associativity).

Definition noSuchTable : jsstring := js "no such table: expenses".
Definition notNull : jsstring := js "NOT NULL constraint failed: expenses.amount".

Definition table (db : DB) : result Table :=
  match db with
  | Some t => Ok t
  | None => Err noSuchTable
  end.

Definition maxId (l : list Row) : Z :=
  fold_right (fun r m => Z.max (id r) m) 0 l.

(** DROP TABLE IF EXISTS expenses; (its counter goes with it) *)
Definition dropTable (db : DB) : result DB := Ok None.

(** CREATE TABLE IF NOT EXISTS expenses (...); *)
Definition createTable (db : DB) : result DB :=
  match db with
  | Some t => Ok (Some t)
  | None => Ok (Some (mkTable [] 0))
  end.

(** INSERT INTO expenses (amount, category, note, date) VALUES (?, ?, ?, ?);
    The new rowid is one more than the largest ever used.  A NaN is bound
    as NULL, which the column refuses. *)
Definition insertExpense (db : DB) (a : Number) (c : jsstring)
    (n : option jsstring) (d : jsstring) : result DB :=
  t <- table db ;;
  if isNaN a then Err notNull
  else
    let i := Z.max (seq t) (maxId (rows t)) + 1 in
    Ok (Some (mkTable (rows t ++ [mkRow i a c n d]) i)).

(** DELETE FROM expenses WHERE id = ?; *)
Definition deleteWhereId (db : DB) (i : Z) : result DB :=
  t <- table db ;;
  Ok (Some (mkTable (filter (fun r => negb (id r =? i)) (rows t)) (seq t))).

(** ORDER BY date DESC: [r] goes before the first row whose date is not
    greater than its own. *)
Fixpoint insertDesc (r : Row) (l : list Row) : list Row :=
  match l with
  | [] => [r]
  | x :: l' =>
      if str_ltb (date r) (date x) then x :: insertDesc r l' else r :: l
  end.

(** Rows with equal dates stay in rowid order, as they leave SQLite's
    sorter (SQL itself leaves their order open). *)
Definition orderByDateDesc (l : list Row) : list Row :=
  fold_right insertDesc [] l.

(** SELECT * FROM expenses ORDER BY date DESC; *)
Definition selectAll (db : DB) : result (list Row) :=
  t <- table db ;;
  Ok (orderByDateDesc (rows t)).

End Store.

Import Store.

(** ** The component *)

(** The view state of [ExpenseScreen]: the hooks [expenses], [amount],
    [category], [note] and [dateFilter]. *)
Record State := mkState {
  expenses : list Row;
  amountText : jsstring;
  categoryText : jsstring;
  noteText : jsstring;
  dateFilter : jsstring
}.

(** The initial values of the hooks. *)
Definition initialState : State := mkState [] [] [] [] (js "all").

Definition setExpenses (l : list Row) (st : State) : State :=
  mkState l (amountText st) (categoryText st) (noteText st) (dateFilter st).

Definition setDateFilter (f : jsstring) (st : State) : State :=
  mkState (expenses st) (amountText st) (categoryText st) (noteText st) f.

(** setAmount(''); setCategory(''); setNote(''); *)
Definition clearForm (st : State) : State :=
  mkState (expenses st) [] [] [] (dateFilter st).

(** What an event handler leaves behind: the store, the view state, and the
    alerts it raised. *)
Record Outcome := mkOutcome {
  out_db : DB;
  out_state : State;
  out_alerts : list jsstring
}.

(** [loadExpenses] *)
Definition loadExpenses (db : DB) (st : State) : result State :=
  rows <- selectAll db ;;
  Ok (setExpenses rows st).

(** [addExpense], run when the clock reads [now]. *)
Definition addExpense (now : Z) (db : DB) (st : State) : Outcome :=
  let amountNumber := parseFloat (amountText st) in
  if isNaN amountNumber || num_leb amountNumber zero then
    mkOutcome db st [js "Please enter a valid amount"]
  else
    let trimmedCategory := trim (categoryText st) in
    let trimmedNote := trim (noteText st) in
    if negb (truthy trimmedCategory) then
      mkOutcome db st [js "Please enter a category"]
    else
      let today := todayString now in
      match
        insertExpense db amountNumber trimmedCategory
          (if truthy trimmedNote then Some trimmedNote else None) today
      with
      | Err m => mkOutcome db st [js "Error: " ++ m]
      | Ok db1 =>
          let st1 := clearForm st in
          match loadExpenses db1 st1 with
          | Err m => mkOutcome db1 st1 [js "Error: " ++ m]
          | Ok st2 => mkOutcome db1 st2 []
          end
      end.

(** [deleteExpense]: no handler around it, a failure leaves things as they
    are. *)
Definition deleteExpense (i : Z) (db : DB) (st : State) : Outcome :=
  match deleteWhereId db i with
  | Err _ => mkOutcome db st []
  | Ok db1 =>
      match loadExpenses db1 st with
      | Err _ => mkOutcome db1 st []
      | Ok st1 => mkOutcome db1 st1 []
      end
  end.

(** [setup], the effect run when the component mounts; its failures are
    only logged. *)
Definition setup (db : DB) (st : State) : Outcome :=
  match dropTable db with
  | Err _ => mkOutcome db st []
  | Ok db1 =>
      match createTable db1 with
      | Err _ => mkOutcome db1 st []
      | Ok db2 =>
          match loadExpenses db2 st with
          | Err _ => mkOutcome db2 st []
          | Ok st1 => mkOutcome db2 st1 []
          end
      end
  end.

Section Engine.

(** The host's time zone: the offset of local time from UTC, in
    milliseconds, at a time value that is UTC ([true]) or local ([false]). *)
Variable LocalTZA : Z -> bool -> Z.

(** What [Date.parse] makes of a string that is not of the form YYYY-MM-DD:
    other forms are left to the implementation, and the application never
    stores them. *)
Variable legacyParse : jsstring -> timevalue.

Definition LocalTime (t : Z) : Z := t + LocalTZA t true.
Definition UTC (t : Z) : Z := t - LocalTZA t false.

(** [new Date(string)] *)
Definition Date_parse (s : jsstring) : timevalue :=
  match parseISODateOnly s with
  | Some v => v
  | None => legacyParse s
  end.

(** [new Date(d)] for a Date [d]: a Date with the same time value. *)
Definition Date_copy (d : timevalue) : timevalue :=
  match d with
  | Some t => TimeClip t
  | None => None
  end.

Definition getDate (d : timevalue) : option Z :=
  match d with
  | Some t => Some (DateFromTime (LocalTime t))
  | None => None
  end.

Definition getMonth (d : timevalue) : option Z :=
  match d with
  | Some t => Some (MonthFromTime (LocalTime t))
  | None => None
  end.

(** [d.setDate(date)]: the new time value of [d]. *)
Definition setDate (d : timevalue) (date : option Z) : timevalue :=
  match d, date with
  | Some t, Some dt =>
      let t := LocalTime t in
      TimeClip
        (UTC (MakeDate (MakeDay (YearFromTime t) (MonthFromTime t) dt)
                (TimeWithinDay t)))
  | _, _ => None
  end.

(** [d.setMonth(month)]: the day of the month is kept. *)
Definition setMonth (d : timevalue) (month : option Z) : timevalue :=
  match d, month with
  | Some t, Some m =>
      let t := LocalTime t in
      TimeClip
        (UTC (MakeDate (MakeDay (YearFromTime t) m (DateFromTime t))
                (TimeWithinDay t)))
  | _, _ => None
  end.

(** The callback of [expenses.filter] in [getFilteredExpenses]. *)
Definition keepExpense (today : timevalue) (dateFilter : jsstring)
    (expense : Row) : bool :=
  let expenseDate := Date_parse (date expense) in
  if str_eqb dateFilter (js "all") then true
  else if str_eqb dateFilter (js "week") then
    let weekAgo := Date_copy today in
    let weekAgo := setDate weekAgo (num_sub (getDate today) 7) in
    date_geb expenseDate weekAgo
  else if str_eqb dateFilter (js "month") then
    let monthAgo := Date_copy today in
    let monthAgo := setMonth monthAgo (num_sub (getMonth today) 1) in
    date_geb expenseDate monthAgo
  else true.

(** [getFilteredExpenses], rendered when the clock reads [now]. *)
Definition getFilteredExpenses (now : Z) (st : State) : list Row :=
  let today := Some now in
  filter (keepExpense today (dateFilter st)) (expenses st).

End Engine.

(** ** Vocabulary of the properties *)

(** A time value a Date can hold: within 100,000,000 days of the epoch.
    Every reading of the clock is one. *)
Definition validTime (t : Z) : Prop := - maxTime <= t <= maxTime.

(** The rows of the store's table; none without a table. *)
Definition dbRows (db : DB) : list Row :=
  match db with
  | Some t => rows t
  | None => []
  end.

(** Two neighbours of a list in descending date order: the second does not
    have the greater date. *)
Definition notBefore (a b : Row) : Prop := str_ltb (date a) (date b) = false.

(** A time zone whose offset from UTC stays below one day either way, as
    that of every zone in use does. *)
Definition zoneWithinDay (tza : Z -> bool -> Z) : Prop :=
  forall t b, - msPerDay < tza t b < msPerDay.

(** The local day the month filter counts from: the day of the month of
    today, one month back ([MakeDay] carries a day the month lacks into the
    next). *)
Definition monthAgoDay (tza : Z -> bool -> Z) (now : Z) : Z :=
  let l := LocalTime tza now in
  MakeDay (YearFromTime l) (MonthFromTime l - 1) (DateFromTime l).

(** A zone with a constant offset of [off] milliseconds. *)
Definition fixedZone (off : Z) : Z -> bool -> Z := fun _ _ => off.

(** The zone of a device set to UTC, and an engine that reads only dates of
    the form YYYY-MM-DD. *)
Definition utcZone : Z -> bool -> Z := fun _ _ => 0.
Definition isoOnly : jsstring -> timevalue := fun _ => None.

(** Input that starts like a number: after leading white space and an
    optional sign comes a digit, a point followed by a digit, or the word
    Infinity.  Any other input is not numeric. *)
Definition startsNumber (r : jsstring) : bool :=
  startsWith (js "Infinity") r
  || match r with
     | c :: r' =>
         isDigit c
         || ((c =? 46)
             && match r' with
                | d :: _ => isDigit d
                | [] => false
                end)
     | [] => false
     end.

Definition numericInput (s : jsstring) : bool :=
  match trimStart s with
  | c :: r =>
      if (c =? 43) || (c =? 45) then startsNumber r else startsNumber (c :: r)
  | [] => false
  end.

(** A submission that passes the checks of [addExpense]: an amount that
    parses to a Number greater than 0, and a category that is not empty once
    trimmed. *)
Definition validSubmission (st : State) : Prop :=
  num_gtb (parseFloat (amountText st)) zero = true
  /\ trim (categoryText st) <> [].

(** The row a valid submission adds to table [t] when the clock reads
    [now]. *)
Definition newExpense (now : Z) (t : Table) (st : State) : Row :=
  mkRow (Z.max (seq t) (maxId (rows t)) + 1)
    (parseFloat (amountText st))
    (trim (categoryText st))
    (if truthy (trim (noteText st)) then Some (trim (noteText st)) else None)
    (todayString now).

(** Sample data: noon UTC on 2024-03-15, and expenses stored on given
    days. *)
Definition noon_2024_03_15 : Z := 1710504000000.

Definition twelve_fifty : Number := S754_finite false 7036874417766400 (-49).

Definition expenseOn (i : Z) (day : string) : Row :=
  mkRow i twelve_fifty (js "Food") None (js day).

Definition viewOf (l : list Row) (f : string) : State :=
  mkState l [] [] [] (js f).

(** The form filled in with amount 12.50, category Food and no note, over
    the list [l]; the same with amount 3 and category Books. *)
Definition foodForm (l : list Row) : State :=
  mkState l (js "12.50") (js "Food") (js "") (js "all").


(** ** The mounted screen: what the user can do *)

(** The three filter buttons. *)
Inductive Selector := All | Week | Month.

Definition selectorName (f : Selector) : jsstring :=
  match f with
  | All => js "all"
  | Week => js "week"
  | Month => js "month"
  end.

Definition setAmount (s : jsstring) (st : State) : State :=
  mkState (expenses st) s (categoryText st) (noteText st) (dateFilter st).

Definition setCategory (s : jsstring) (st : State) : State :=
  mkState (expenses st) (amountText st) s (noteText st) (dateFilter st).

Definition setNote (s : jsstring) (st : State) : State :=
  mkState (expenses st) (amountText st) (categoryText st) s (dateFilter st).

(** The handlers the rendered screen wires up: the three text inputs
    ([onChangeText]), the filter buttons, the Add button and the delete mark
    of a row, which passes the id of its item.  [PressAdd] carries the
    reading of the clock. *)
Inductive Event :=
| ChangeAmount (text : jsstring)
| ChangeCategory (text : jsstring)
| ChangeNote (text : jsstring)
| PressFilter (f : Selector)
| PressAdd (now : Z)
| PressDelete (i : Z).

Definition handle (e : Event) (db : DB) (st : State) : Outcome :=
  match e with
  | ChangeAmount s => mkOutcome db (setAmount s st) []
  | ChangeCategory s => mkOutcome db (setCategory s st) []
  | ChangeNote s => mkOutcome db (setNote s st) []
  | PressFilter f => mkOutcome db (setDateFilter (selectorName f) st) []
  | PressAdd now => addExpense now db st
  | PressDelete i => deleteExpense i db st
  end.

(** Events are handled one after the other, each to its end: no press
    arrives while an earlier handler still awaits the store. *)
Fixpoint run (es : list Event) (o : Outcome) : Outcome :=
  match es with
  | [] => o
  | e :: es' => run es' (handle e (out_db o) (out_state o))
  end.

(** Mounting the component: the hooks take their initial values and the
    effect runs [setup]. *)
Definition launch (db : DB) : Outcome := setup db initialState.

(** A session: a launch on the store as it was left, then events. *)
Definition session (db : DB) (es : list Event) : Outcome :=
  run es (launch db).

(** The clock of every Add of a list of events reads a valid time. *)
Definition clockValid (e : Event) : Prop :=
  match e with
  | PressAdd now => validTime now
  | _ => True
  end.


(** The rowids of a table go up along it and stay within its counter. *)
Definition idsAscend (t : Table) : Prop :=
  StronglySorted (fun a b => id a < id b) (rows t)
  /\ Forall (fun r => 0 < id r <= seq t) (rows t).

(** The list on the screen is what the store holds, in the order of the
    SELECT. *)
Definition inSync (db : DB) (st : State) : Prop :=
  expenses st = orderByDateDesc (dbRows db).

(** White space only. *)
Definition allWhiteSpace (s : jsstring) : Prop :=
  Forall (fun c => isWhiteSpace c = true) s.

(** Time values whose year has four digits, 0000 to 9999. *)
Definition fourDigitYear (t : Z) : Prop :=
  -62167219200000 <= t <= 253402300799999.

(** The clock of every Add reads a time in a four-digit year. *)
Definition clockFourDigit (e : Event) : Prop :=
  match e with
  | PressAdd now => fourDigitYear now
  | _ => True
  end.

(** Row [r] carries the date of day [d], a day of a four-digit year. *)
Definition storedOn (r : Row) (d : Z) : Prop :=
  exists t, fourDigitYear t /\ date r = todayString t /\ Day t = d.

(** [a] was not stored on an earlier day than [b]. *)
Definition notOlder (a b : Row) : Prop :=
  forall da db, storedOn a da -> storedOn b db -> db <= da.

(** A form typed with white space around the category and the note. *)
Definition paddedForm (l : list Row) : State :=
  mkState l (js "12.50") (js "  Food ") (js " lunch  ") (js "all").

(** A session: an expense with a note is added at noon, another the day
    after, and the 'week' filter is chosen; the first of the two rows; and
    how the session goes on: the second row is deleted and a third expense
    added. *)
Definition sampleEvents : list Event :=
  [ChangeAmount (js "12.50"); ChangeCategory (js " Food ");
   ChangeNote (js "lunch"); PressAdd noon_2024_03_15;
   ChangeAmount (js "3"); ChangeCategory (js "Books");
   PressAdd (noon_2024_03_15 + msPerDay); PressFilter Week].

Definition lunchRow : Row :=
  mkRow 1 twelve_fifty (js "Food") (Some (js "lunch")) (js "2024-03-15").

Definition laterEvents : list Event :=
  [PressDelete 2; ChangeAmount (js "7"); ChangeCategory (js "Bus");
   PressAdd (noon_2024_03_15 + 2 * msPerDay)].

(** The device's current calendar day, written the way the stored dates
    are: the year, month and date of local time ([getFullYear],
    [getMonth() + 1], [getDate]) as YYYY-MM-DD. *)
Definition localDateString (tza : Z -> bool -> Z) (now : Z) : jsstring :=
  isoDatePart (LocalTime tza now).

(** A form with a valid amount and a category of three blanks. *)
Definition blankCategoryForm (l : list Row) : State :=
  mkState l (js "12.50") (js "   ") (js "lunch") (js "all").

(** 20:00 on 2024-03-14 for a device five hours behind UTC: 01:00 UTC on
    2024-03-15. *)
Definition evening_behind_utc : Z := noon_2024_03_15 - 11 * 3600000.

(** * Properties *)

(** ** The calendar *)

Section Calendar.

Lemma DayFromYear_succ (y : Z) :
  DayFromYear (y + 1) = DayFromYear y + DaysInYear y.
Proof.
  unfold DayFromYear, DaysInYear.
  destruct (Z.eqb_spec (y mod 4) 0); cbn [negb];
    [destruct (Z.eqb_spec (y mod 100) 0); cbn [negb];
       [destruct (Z.eqb_spec (y mod 400) 0); cbn [negb]|]|];
    Z.to_euclidean_division_equations; lia.
Qed.

Lemma DaysInYear_cases (y : Z) : DaysInYear y = 365 \/ DaysInYear y = 366.
Proof.
  unfold DaysInYear.
  destruct (negb (y mod 4 =? 0)), (negb (y mod 100 =? 0)),
    (negb (y mod 400 =? 0)); auto.
Qed.

Lemma DayFromYear_mono (y y' : Z) : y <= y' -> DayFromYear y <= DayFromYear y'.
Proof.
  intros H. unfold DayFromYear. Z.to_euclidean_division_equations; lia.
Qed.

Lemma DayFromYear_lt (y y' : Z) : y < y' -> DayFromYear y < DayFromYear y'.
Proof.
  intros H.
  assert (DayFromYear (y + 1) <= DayFromYear y') by (apply DayFromYear_mono; lia).
  rewrite DayFromYear_succ in *. destruct (DaysInYear_cases y); lia.
Qed.

(** [YearFromTime t] is the year whose days include [Day t]. *)
Lemma YearFromTime_spec (t : Z) :
  DayFromYear (YearFromTime t) <= Day t < DayFromYear (YearFromTime t + 1).
Proof.
  unfold YearFromTime. generalize (Day t). intros d.
  destruct (Z.ltb_spec d (DayFromYear (1970 + d * 400 / 146097))).
  - unfold DayFromYear in *. Z.to_euclidean_division_equations; lia.
  - destruct (Z.leb_spec (DayFromYear (1970 + d * 400 / 146097 + 1)) d).
    + unfold DayFromYear in *. Z.to_euclidean_division_equations; lia.
    + lia.
Qed.

(** It is the only such year. *)
Lemma YearFromTime_unique (t y : Z) :
  DayFromYear y <= Day t < DayFromYear (y + 1) -> YearFromTime t = y.
Proof.
  intros H. pose proof (YearFromTime_spec t) as S.
  destruct (Z.lt_trichotomy (YearFromTime t) y) as [L | [E | G]]; auto.
  - assert (DayFromYear (YearFromTime t + 1) <= DayFromYear y)
      by (apply DayFromYear_mono; lia). lia.
  - assert (DayFromYear (y + 1) <= DayFromYear (YearFromTime t))
      by (apply DayFromYear_mono; lia). lia.
Qed.

Lemma InLeapYear_cases (t : Z) :
  (InLeapYear t = 0 /\ DaysInYear (YearFromTime t) = 365)
  \/ (InLeapYear t = 1 /\ DaysInYear (YearFromTime t) = 366).
Proof.
  unfold InLeapYear. destruct (DaysInYear_cases (YearFromTime t)) as [E | E];
    rewrite E; simpl; auto.
Qed.

Lemma DayWithinYear_range (t : Z) :
  0 <= DayWithinYear t < 365 + InLeapYear t.
Proof.
  unfold DayWithinYear. pose proof (YearFromTime_spec t) as S.
  rewrite DayFromYear_succ in S.
  destruct (InLeapYear_cases t) as [[-> E] | [-> E]]; lia.
Qed.

Lemma MonthFromTime_range (t : Z) : 0 <= MonthFromTime t <= 11.
Proof.
  unfold MonthFromTime.
  repeat match goal with
         | |- context [if ?c then _ else _] => destruct c
         end; lia.
Qed.

Lemma DateFromTime_range (t : Z) : 1 <= DateFromTime t <= 31.
Proof.
  unfold DateFromTime, MonthFromTime.
  pose proof (DayWithinYear_range t) as R.
  destruct (InLeapYear_cases t) as [[E _] | [E _]]; rewrite E in *;
    repeat match goal with
           | |- context [if ?a <? ?b then _ else _] =>
               destruct (Z.ltb_spec a b)
           end; cbn; lia.
Qed.

(** [MakeDay] on the year and month of [t]: the days shift with the date. *)
Lemma MakeDay_same_month (t dt : Z) :
  MakeDay (YearFromTime t) (MonthFromTime t) dt
  = Day t + (dt - DateFromTime t).
Proof.
  pose proof (MonthFromTime_range t) as R.
  unfold MakeDay, DateFromTime, DayWithinYear.
  replace (MonthFromTime t / 12) with 0
    by (Z.to_euclidean_division_equations; lia).
  replace (MonthFromTime t mod 12) with (MonthFromTime t)
    by (Z.to_euclidean_division_equations; lia).
  rewrite Z.add_0_r. fold (InLeapYear t). lia.
Qed.

Lemma MakeDay_fields (t : Z) :
  MakeDay (YearFromTime t) (MonthFromTime t) (DateFromTime t) = Day t.
Proof. rewrite MakeDay_same_month. lia. Qed.

Lemma Day_TimeWithinDay (t : Z) : MakeDate (Day t) (TimeWithinDay t) = t.
Proof.
  unfold MakeDate, Day, TimeWithinDay, msPerDay.
  Z.to_euclidean_division_equations; lia.
Qed.

Lemma TimeWithinDay_range (t : Z) : 0 <= TimeWithinDay t < msPerDay.
Proof. unfold TimeWithinDay, msPerDay. apply Z.mod_pos_bound. lia. Qed.

Lemma Day_MakeDate (d : Z) : Day (MakeDate d 0) = d.
Proof.
  unfold Day, MakeDate, msPerDay. Z.to_euclidean_division_equations; lia.
Qed.

Lemma Day_MakeDate_time (d tod : Z) :
  0 <= tod < msPerDay -> Day (MakeDate d tod) = d.
Proof.
  unfold Day, MakeDate, msPerDay. intros H.
  Z.to_euclidean_division_equations; lia.
Qed.

(** [MakeDay] is the day with the year, month and date it was asked for,
    when the month has that date. *)
Lemma MakeDay_civil (y m d tod : Z) :
  let ym := y + m / 12 in
  let mn := m mod 12 in
  let leap := if DaysInYear ym =? 366 then 1 else 0 in
  1 <= d <= DaysInMonth mn leap ->
  0 <= tod < msPerDay ->
  let t := MakeDate (MakeDay y m d) tod in
  YearFromTime t = ym /\ MonthFromTime t = mn /\ DateFromTime t = d.
Proof.
  intros ym mn leap D T t.
  assert (Dt : Day t = MakeDay y m d) by (apply Day_MakeDate_time, T).
  assert (R : 0 <= mn < 12) by (apply Z.mod_pos_bound; lia).
  assert (L : DaysInYear ym = 365 + leap).
  { subst leap. destruct (DaysInYear_cases ym) as [E | E]; rewrite E;
      reflexivity. }
  assert (W : MakeDay y m d = DayFromYear ym + (monthStart mn leap + d - 1))
    by (unfold MakeDay; fold ym mn leap; lia).
  assert (C : mn = 0 \/ mn = 1 \/ mn = 2 \/ mn = 3 \/ mn = 4 \/ mn = 5
              \/ mn = 6 \/ mn = 7 \/ mn = 8 \/ mn = 9 \/ mn = 10 \/ mn = 11)
    by lia.
  assert (B : 0 <= monthStart mn leap + d - 1 < 365 + leap
              /\ (leap = 0 \/ leap = 1)).
  { assert (leap = 0 \/ leap = 1)
      by (subst leap; destruct (DaysInYear ym =? 366); auto).
    clearbody leap. unfold DaysInMonth, monthStart in *.
    repeat match goal with
           | H : context [?a =? ?b] |- _ => destruct (Z.eqb_spec a b); try lia
           | |- context [?a =? ?b] => destruct (Z.eqb_spec a b); try lia
           end. }
  assert (Y : YearFromTime t = ym).
  { apply YearFromTime_unique. rewrite DayFromYear_succ, Dt, W, L. lia. }
  assert (IL : InLeapYear t = leap) by (unfold InLeapYear; rewrite Y; reflexivity).
  assert (DW : DayWithinYear t = monthStart mn leap + d - 1)
    by (unfold DayWithinYear; rewrite Y, Dt, W; lia).
  split; [exact Y |].
  assert (M : MonthFromTime t = mn).
  { unfold MonthFromTime. rewrite DW, IL. destruct B as [_ B].
    clearbody leap. clear - C D B R. unfold DaysInMonth, monthStart in *.
    repeat match goal with
           | H : context [?a =? ?b] |- _ => destruct (Z.eqb_spec a b); try lia
           | |- context [?a =? ?b] => destruct (Z.eqb_spec a b); try lia
           end;
      repeat match goal with
             | |- context [if ?a <? ?b then _ else _] =>
                 destruct (Z.ltb_spec a b); try lia
             end. }
  split; [exact M |].
  unfold DateFromTime. rewrite M, DW, IL. lia.
Qed.

End Calendar.

(** ** Date strings: what [addExpense] stores, [new Date] reads back *)

Section DateStrings.

Lemma YearFromTime_valid (t : Z) :
  validTime t -> -271821 <= YearFromTime t <= 275760.
Proof.
  unfold validTime, maxTime. intros V.
  pose proof (YearFromTime_spec t) as S.
  assert (D : -100000000 <= Day t <= 100000000)
    by (unfold Day, msPerDay; Z.to_euclidean_division_equations; lia).
  split.
  - destruct (Z.le_gt_cases (-271821) (YearFromTime t)) as [L | G]; auto.
    assert (M : DayFromYear (YearFromTime t + 1) <= DayFromYear (-271821))
      by (apply DayFromYear_mono; lia).
    vm_compute (DayFromYear (-271821)) in M. lia.
  - destruct (Z.le_gt_cases (YearFromTime t) 275760) as [L | G]; auto.
    assert (M : DayFromYear 275761 <= DayFromYear (YearFromTime t))
      by (apply DayFromYear_mono; lia).
    vm_compute (DayFromYear 275761) in M. lia.
Qed.

Lemma readDigits_add (n m : nat) :
  forall acc s,
    readDigits (n + m) acc s
    = match readDigits n acc s with
      | Some (v, r) => readDigits m v r
      | None => None
      end.
Proof.
  induction n as [| n IH]; intros acc s; simpl; auto.
  destruct s as [| c s]; auto. destruct (isDigit c); auto.
Qed.

Lemma readDigits_padDigits (n : nat) :
  forall v acc rest,
    0 <= v < 10 ^ Z.of_nat n ->
    readDigits n acc (padDigits n v ++ rest)
    = Some (acc * 10 ^ Z.of_nat n + v, rest).
Proof.
  induction n as [| n IH]; intros v acc rest H.
  - simpl in *. f_equal. f_equal. lia.
  - replace (S n) with (n + 1)%nat by lia.
    rewrite readDigits_add.
    replace (n + 1)%nat with (S n) by lia. cbn [padDigits].
    rewrite <- app_assoc.
    replace (Z.of_nat (S n)) with (Z.of_nat n + 1) in * by lia.
    rewrite Z.pow_add_r, Z.pow_1_r in * by lia.
    rewrite IH by (Z.to_euclidean_division_equations; nia).
    cbn [app readDigits]. unfold isDigit.
    assert (0 <= v mod 10 < 10) by (apply Z.mod_pos_bound; lia).
    destruct (Z.leb_spec 48 (48 + v mod 10)); try lia.
    destruct (Z.leb_spec (48 + v mod 10) 57); try lia.
    cbn [andb]. f_equal. f_equal.
    Z.to_euclidean_division_equations; nia.
Qed.

Lemma padDigits_digits (w : nat) :
  forall n, Forall (fun c => 48 <= c <= 57) (padDigits w n).
Proof.
  induction w as [| w IH]; intros n; cbn [padDigits].
  - constructor.
  - apply Forall_app. split; [apply IH |].
    constructor; [| constructor].
    assert (0 <= n mod 10 < 10) by (apply Z.mod_pos_bound; lia). lia.
Qed.

Lemma split_first (sep : Z) (a b : jsstring) :
  ~ In sep a -> hd [] (split sep (a ++ sep :: b)) = a.
Proof.
  induction a as [| c a IH]; intros N; simpl.
  - rewrite Z.eqb_refl. reflexivity.
  - destruct (Z.eqb_spec c sep) as [E | E].
    + exfalso. apply N. left. exact E.
    + assert (IH' := IH (fun H => N (or_intror H))).
      destruct (split sep (a ++ sep :: b)); simpl in *; congruence.
Qed.

Lemma isoDatePart_no_T (t : Z) : ~ In 84 (isoDatePart t).
Proof.
  assert (P : forall w n, ~ In 84 (padDigits w n)).
  { intros w n H. pose proof (padDigits_digits w n) as F.
    rewrite Forall_forall in F. apply F in H. lia. }
  assert (Y : forall y, ~ In 84 (isoYear y)).
  { intros y H. unfold isoYear in H.
    destruct ((0 <=? y) && (y <=? 9999)).
    - exact (P _ _ H).
    - destruct H as [H | H]; [| exact (P _ _ H)].
      destruct (y <? 0); lia. }
  unfold isoDatePart. rewrite !in_app_iff. cbn [In].
  intros [H | [[H | []] | [H | [[H | []] | H]]]];
    try lia; try exact (P _ _ H); exact (Y _ H).
Qed.

(** The date [addExpense] stores is the date part of the ISO string. *)
Lemma todayString_isoDatePart (t : Z) : todayString t = isoDatePart t.
Proof.
  unfold todayString, toISOString. apply split_first, isoDatePart_no_T.
Qed.

Lemma readYear_isoYear (y : Z) (rest : jsstring) :
  -999999 <= y <= 999999 ->
  readYear (isoYear y ++ rest) = Some (true, y, rest).
Proof.
  intros R. unfold isoYear.
  destruct (Z.leb_spec 0 y) as [P | N]; cbn [andb].
  - destruct (Z.leb_spec y 9999) as [S | B].
    + pose proof (readDigits_padDigits 4 y 0 rest) as E.
      assert (D : 0 <= y / 10 / 10 / 10 mod 10 < 10)
        by (apply Z.mod_pos_bound; lia).
      cbn [padDigits app] in *. rewrite <- ?app_assoc in *.
      cbn [app] in *. unfold readYear.
      destruct (Z.eqb_spec (48 + y / 10 / 10 / 10 mod 10) 43); [lia |].
      destruct (Z.eqb_spec (48 + y / 10 / 10 / 10 mod 10) 45); [lia |].
      rewrite E by (simpl; lia). 
      replace (0 * 10 ^ Z.of_nat 4 + y) with y by lia. reflexivity.
    + destruct (Z.ltb_spec y 0); [lia |].
      cbn [app readYear]. cbn [Z.eqb Pos.eqb].
      rewrite readDigits_padDigits by (simpl; lia).
      replace (0 * 10 ^ Z.of_nat 6 + Z.abs y) with y by lia. reflexivity.
  - destruct (Z.ltb_spec y 0); [| lia].
    cbn [app readYear]. cbn [Z.eqb Pos.eqb].
    rewrite readDigits_padDigits by (simpl; lia).
    replace (0 * 10 ^ Z.of_nat 6 + Z.abs y) with (- y) by lia.
    destruct (Z.eqb_spec (- y) 0); [lia |].
    cbn [negb]. rewrite Z.opp_involutive. reflexivity.
Qed.

(** Read back, the stored date is UTC midnight of the day it was stored. *)
Lemma parse_isoDatePart (t : Z) :
  validTime t ->
  parseISODateOnly (isoDatePart t) = Some (Some (MakeDate (Day t) 0)).
Proof.
  intros V. pose proof (YearFromTime_valid t V) as Y.
  pose proof (MonthFromTime_range t) as M.
  pose proof (DateFromTime_range t) as D.
  unfold parseISODateOnly, isoDatePart.
  rewrite readYear_isoYear by lia.
  cbn [app expect]. rewrite Z.eqb_refl.
  rewrite readDigits_padDigits by (simpl; lia).
  cbn [app expect]. rewrite Z.eqb_refl.
  rewrite <- (app_nil_r (padDigits 2 (DateFromTime t))).
  rewrite readDigits_padDigits by (simpl; lia).
  replace (0 * 10 ^ Z.of_nat 2 + (MonthFromTime t + 1))
    with (MonthFromTime t + 1) by lia.
  replace (0 * 10 ^ Z.of_nat 2 + DateFromTime t) with (DateFromTime t) by lia.
  destruct (Z.leb_spec 1 (MonthFromTime t + 1)); [| lia].
  destruct (Z.leb_spec (MonthFromTime t + 1) 12); [| lia].
  destruct (Z.leb_spec 1 (DateFromTime t)); [| lia].
  destruct (Z.leb_spec (DateFromTime t) 31); [| lia].
  cbn [andb].
  replace (MonthFromTime t + 1 - 1) with (MonthFromTime t) by lia.
  rewrite MakeDay_fields. unfold TimeClip.
  assert (Z.abs (MakeDate (Day t) 0) <= maxTime) as C.
  { unfold validTime, maxTime, MakeDate, Day, msPerDay in *.
    Z.to_euclidean_division_equations; lia. }
  apply Z.leb_le in C. rewrite C. reflexivity.
Qed.

End DateStrings.

(** ** Strings and numbers *)

Section Strings.

Lemma trimStart_idem (s : jsstring) : trimStart (trimStart s) = trimStart s.
Proof.
  induction s as [| c s IH]; simpl; auto.
  destruct (isWhiteSpace c) eqn:W; auto. simpl. rewrite W. reflexivity.
Qed.

Lemma trimStart_snoc (l : jsstring) (c : Z) :
  isWhiteSpace c = false -> trimStart (l ++ [c]) = trimStart l ++ [c].
Proof.
  intros W. induction l as [| x l IH]; simpl.
  - rewrite W. reflexivity.
  - destruct (isWhiteSpace x); auto.
Qed.

Lemma trimStart_head (s : jsstring) :
  trimStart s = []
  \/ exists c r, trimStart s = c :: r /\ isWhiteSpace c = false.
Proof.
  induction s as [| c s IH]; simpl; auto.
  destruct (isWhiteSpace c) eqn:W; auto. right. eauto.
Qed.

Lemma trimEnd_cons (c : Z) (r : jsstring) :
  isWhiteSpace c = false -> trimEnd (c :: r) = c :: trimEnd r.
Proof.
  intros W. unfold trimEnd. simpl.
  rewrite trimStart_snoc by exact W. rewrite rev_app_distr. reflexivity.
Qed.

Lemma trimEnd_idem (s : jsstring) : trimEnd (trimEnd s) = trimEnd s.
Proof. unfold trimEnd. rewrite rev_involutive, trimStart_idem. reflexivity. Qed.

(** Trimming a trimmed string changes nothing. *)
Lemma trim_idem (s : jsstring) : trim (trim s) = trim s.
Proof.
  unfold trim. destruct (trimStart_head s) as [E | (c & r & E & W)]; rewrite E.
  - reflexivity.
  - rewrite (trimEnd_cons c r W). simpl. rewrite W.
    rewrite <- (trimEnd_cons c r W). apply trimEnd_idem.
Qed.

Lemma truthy_false (s : jsstring) : truthy s = false <-> s = [].
Proof. destruct s; simpl; split; congruence. Qed.

(** A Number passes [isNaN(x) || x <= 0] exactly when it is greater than 0. *)
Lemma positive_iff (x : Number) :
  num_gtb x zero = true <-> isNaN x || num_leb x zero = false.
Proof.
  destruct x as [[|] | [|] | | [|] m e]; cbn; split; congruence.
Qed.

Lemma takeDigits_none (r : jsstring) :
  match r with
  | c :: _ => isDigit c = false
  | [] => True
  end ->
  takeDigits r = ([], r).
Proof.
  destruct r as [| c r]; simpl; auto. intros ->. reflexivity.
Qed.

Lemma takeDigits_some (c : Z) (r : jsstring) :
  isDigit c = true ->
  exists ds rest, takeDigits (c :: r) = (c - 48 :: ds, rest).
Proof.
  intros D. simpl. rewrite D. destruct (takeDigits r) as [ds rest]. eauto.
Qed.

Lemma parseUnsigned_nan (neg : bool) (r : jsstring) :
  startsNumber r = false -> parseUnsigned neg r = S754_nan.
Proof.
  unfold startsNumber, parseUnsigned. intros H.
  apply orb_false_iff in H. destruct H as [I H]. rewrite I.
  destruct r as [| c r]; [reflexivity |].
  apply orb_false_iff in H. destruct H as [D P].
  rewrite (takeDigits_none (c :: r)) by exact D.
  destruct (Z.eqb_spec c 46) as [E | E]; [| reflexivity].
  cbn [andb] in P. rewrite (takeDigits_none r); [reflexivity |].
  destruct r; auto.
Qed.

(** Input that is not numeric parses to NaN. *)
Lemma parseFloat_nan (s : jsstring) :
  numericInput s = false -> parseFloat s = S754_nan.
Proof.
  unfold numericInput, parseFloat. destruct (trimStart s) as [| c r]; auto.
  destruct (Z.eqb_spec c 43); cbn [orb].
  - apply parseUnsigned_nan.
  - destruct (Z.eqb_spec c 45); apply parseUnsigned_nan.
Qed.

End Strings.

(** ** Numbers read from text *)

Section NumberFacts.

Lemma shr_1_nonneg (mrs : shr_record) : 0 <= shr_m mrs -> 0 <= shr_m (shr_1 mrs).
Proof.
  destruct mrs as [m r s]. simpl.
  destruct m as [| [p | p |] | p]; simpl; lia.
Qed.

Lemma iter_pos_inv {A} (P : A -> Prop) (f : A -> A) :
  (forall x, P x -> P (f x)) -> forall p x, P x -> P (iter_pos f p x).
Proof.
  intros F. induction p as [p IH | p IH |]; intros x H; simpl; auto.
Qed.

Lemma shr_fexp_nonneg (m e : Z) (l : location) :
  0 <= m -> 0 <= shr_m (fst (shr_fexp prec emax m e l)).
Proof.
  intros H. unfold shr_fexp, shr.
  assert (I : 0 <= shr_m (shr_record_of_loc m l))
    by (destruct l as [| []]; exact H).
  destruct (fexp prec emax (Zdigits2 m + e) - e) as [| p | p]; simpl; auto.
  apply (iter_pos_inv (fun x => 0 <= shr_m x)); auto using shr_1_nonneg.
Qed.

Lemma round_nearest_even_nonneg (m : Z) (l : location) :
  0 <= m -> 0 <= round_nearest_even m l.
Proof.
  intros H. destruct l as [| []]; simpl; try lia. destruct (Z.even m); lia.
Qed.

Lemma binary_round_aux_number (s : bool) (m e : Z) (l : location) :
  0 <= m -> isNaN (binary_round_aux prec emax s m e l) = false.
Proof.
  intros H. unfold binary_round_aux.
  pose proof (shr_fexp_nonneg m e l H) as A.
  destruct (shr_fexp prec emax m e l) as [mrs' e']. simpl in A.
  pose proof (shr_fexp_nonneg _ e' loc_Exact
                (round_nearest_even_nonneg _ (loc_of_shr_record mrs') A)) as B.
  destruct (shr_fexp prec emax
              (round_nearest_even (shr_m mrs') (loc_of_shr_record mrs')) e'
              loc_Exact) as [mrs'' e'']. simpl in B.
  destruct (shr_m mrs'') as [| p | p]; try lia; auto.
  destruct (e'' <=? emax - prec); reflexivity.
Qed.

Lemma number_of_decimal_number (neg : bool) (m e : Z) :
  0 <= m -> isNaN (number_of_decimal neg m e) = false.
Proof.
  intros H. unfold number_of_decimal.
  destruct m as [| p | p]; [reflexivity | | lia].
  destruct (Z.leb_spec 0 e) as [E | E].
  - unfold binary_round.
    destruct (shl_align _ _ _) as [mz ez].
    apply binary_round_aux_number. lia.
  - unfold SFdiv_core_binary.
    set (s := 0 - 0 -
              Z.min (fexp prec emax
                       (Zdigits2 (Z.pos p) + 0 - (Zdigits2 (10 ^ (- e)) + 0)))
                (0 - 0)).
    set (m' := match s with
               | 0 => Z.pos p
               | Z.pos _ => Z.shiftl (Z.pos p) s
               | Z.neg _ => 0
               end).
    assert (M : 0 <= m').
    { subst m'. destruct s; try lia. apply Z.shiftl_nonneg. lia. }
    assert (P : 0 < 10 ^ (- e)) by (apply Z.pow_pos_nonneg; lia).
    pose proof (Z.div_pos m' (10 ^ (- e)) M P) as Q.
    unfold Z.div in Q.
    destruct (Z.div_eucl m' (10 ^ (- e))) as [q r].
    apply binary_round_aux_number, Q.
Qed.

Lemma digitsValue_nonneg_from (ds : list Z) :
  forall acc, 0 <= acc -> Forall (fun d => 0 <= d) ds ->
    0 <= fold_left (fun a d => a * 10 + d) ds acc.
Proof.
  induction ds as [| d ds IH]; intros acc A F; simpl; auto.
  inversion F; subst. apply IH; auto. lia.
Qed.

Lemma takeDigits_nonneg (s : jsstring) :
  Forall (fun d => 0 <= d) (fst (takeDigits s)).
Proof.
  induction s as [| c s IH]; simpl; [constructor |].
  destruct (isDigit c) eqn:D; [| constructor].
  destruct (takeDigits s) as [ds r]. simpl in *. constructor; auto.
  unfold isDigit in D. apply andb_true_iff in D. destruct D as [D _].
  apply Z.leb_le in D. lia.
Qed.

Lemma parseUnsigned_number (neg : bool) (r : jsstring) :
  startsNumber r = true -> isNaN (parseUnsigned neg r) = false.
Proof.
  unfold startsNumber, parseUnsigned. intros H.
  destruct (startsWith (js "Infinity") r); [reflexivity |].
  cbn [orb] in H. destruct r as [| c r]; [discriminate |].
  pose proof (takeDigits_nonneg (c :: r)) as N1.
  assert (V : forall a b, Forall (fun d => 0 <= d) a ->
                Forall (fun d => 0 <= d) b -> 0 <= digitsValue (a ++ b)).
  { intros a b Fa Fb. apply digitsValue_nonneg_from; [lia |].
    apply Forall_app. auto. }
  destruct (isDigit c) eqn:D.
  - destruct (takeDigits_some c r D) as (ds & rest & E). rewrite E in *.
    simpl in N1.
    match goal with
    | |- context [let '(fp, r3) := ?x in _] =>
        assert (N2 : Forall (fun d => 0 <= d) (fst x));
        [| destruct x as [fp r3]]
    end.
    { destruct rest as [| x rest]; [constructor |].
      destruct (x =? 46); [apply takeDigits_nonneg | constructor]. }
    apply number_of_decimal_number, V; assumption.
  - cbn [orb] in H. apply andb_true_iff in H. destruct H as [P Q].
    rewrite (takeDigits_none (c :: r)) by exact D. rewrite P.
    destruct r as [| d r]; [discriminate |].
    pose proof (takeDigits_nonneg (d :: r)) as N2.
    destruct (takeDigits_some d r Q) as (ds & rest & E). rewrite E in *.
    apply number_of_decimal_number, V; [constructor | assumption].
Qed.

(** [parseFloat] gives NaN exactly on input that is not numeric. *)
Lemma parseFloat_isNaN (s : jsstring) :
  isNaN (parseFloat s) = negb (numericInput s).
Proof.
  destruct (numericInput s) eqn:N.
  - unfold numericInput, parseFloat in *.
    destruct (trimStart s) as [| c r]; [discriminate |].
    destruct (Z.eqb_spec c 43); cbn [orb] in N.
    + apply parseUnsigned_number, N.
    + destruct (Z.eqb_spec c 45); apply parseUnsigned_number, N.
  - rewrite (parseFloat_nan s N). reflexivity.
Qed.

End NumberFacts.

(** ** The store *)

Section StoreFacts.

Lemma maxId_ge (l : list Row) (x : Row) : In x l -> id x <= maxId l.
Proof.
  induction l as [| y l IH]; simpl; [tauto |].
  intros [-> | H]; [| apply IH in H]; lia.
Qed.

Lemma filter_none {A} (f : A -> bool) (l : list A) :
  (forall x, In x l -> f x = false) -> filter f l = [].
Proof.
  induction l as [| y l IH]; simpl; intros H; auto.
  rewrite (H y) by auto. apply IH. auto.
Qed.

Lemma filter_perm {A} (f : A -> bool) (l l' : list A) :
  Permutation l l' -> Permutation (filter f l) (filter f l').
Proof.
  induction 1 as [| x l l' _ IH | x y l | l l' l'' _ IH1 _ IH2]; simpl.
  - constructor.
  - destruct (f x); auto.
  - destruct (f x), (f y); auto using perm_swap.
  - eapply perm_trans; eauto.
Qed.

Lemma insertDesc_perm (r : Row) (l : list Row) :
  Permutation (insertDesc r l) (r :: l).
Proof.
  induction l as [| x l IH]; simpl; auto.
  destruct (str_ltb (date r) (date x)); auto.
  eapply perm_trans; [apply perm_skip, IH | apply perm_swap].
Qed.

(** The SELECT returns the rows of the table, each as often as it is
    there. *)
Lemma orderByDateDesc_perm (l : list Row) : Permutation (orderByDateDesc l) l.
Proof.
  induction l as [| x l IH]; simpl; auto.
  eapply perm_trans; [apply insertDesc_perm | auto].
Qed.

Lemma str_ltb_asym (a : jsstring) :
  forall b, str_ltb a b = true -> str_ltb b a = false.
Proof.
  induction a as [| x a IH]; intros [| y b]; simpl; try congruence.
  intros H. apply orb_true_iff in H.
  destruct (Z.ltb_spec y x), (Z.eqb_spec y x); simpl; try lia;
    destruct H as [H | H]; try (apply Z.ltb_lt in H; lia).
  apply andb_true_iff in H. destruct H as [_ H]. apply IH, H.
Qed.

Lemma str_ltb_irrefl (a : jsstring) : str_ltb a a = false.
Proof.
  induction a as [| x a IH]; simpl; auto.
  rewrite Z.ltb_irrefl, Z.eqb_refl. exact IH.
Qed.

Lemma insertDesc_sorted (r : Row) (l : list Row) :
  Sorted notBefore l -> Sorted notBefore (insertDesc r l).
Proof.
  induction l as [| x l IH]; simpl; intros S.
  - repeat constructor.
  - destruct (str_ltb (date r) (date x)) eqn:L.
    + inversion S as [| ? ? S' Hd]; subst. constructor; [apply IH, S' |].
      destruct l as [| y l]; simpl.
      * constructor. apply str_ltb_asym, L.
      * destruct (str_ltb (date r) (date y)).
        -- inversion Hd; subst. constructor. assumption.
        -- constructor. apply str_ltb_asym, L.
    + constructor; [exact S |]. constructor. exact L.
Qed.

Lemma orderByDateDesc_sorted (l : list Row) :
  Sorted notBefore (orderByDateDesc l).
Proof.
  induction l as [| x l IH]; simpl; [constructor | apply insertDesc_sorted, IH].
Qed.


(** The row an INSERT adds is the only one with its rowid. *)
Lemma fresh_id_unique (t : Table) (r : Row) :
  id r = Z.max (seq t) (maxId (rows t)) + 1 ->
  filter (fun x => id x =? id r) (orderByDateDesc (rows t ++ [r])) = [r].
Proof.
  intros E. apply Permutation_length_1_inv. symmetry.
  eapply perm_trans; [apply filter_perm, orderByDateDesc_perm |].
  rewrite filter_app. simpl. rewrite Z.eqb_refl, filter_none; auto.
  intros x H. apply maxId_ge in H. apply Z.eqb_neq. lia.
Qed.

(** A list whose rows selected by [f] are just [r] holds [r] exactly
    once. *)
Lemma selected_once {A} (f : A -> bool) (l : list A) (r : A) :
  filter f l = [r] ->
  exists l1 l2, l = l1 ++ r :: l2 /\ ~ In r l1 /\ ~ In r l2.
Proof.
  intros E.
  assert (I : In r (filter f l)) by (rewrite E; left; reflexivity).
  apply filter_In in I. destruct I as [I F].
  destruct (in_split r l I) as (l1 & l2 & ->). exists l1, l2.
  rewrite filter_app in E. simpl in E. rewrite F in E.
  destruct (filter f l1) as [| a k] eqn:E1.
  - simpl in E. injection E as E2.
    repeat split; intros H.
    + assert (In r (filter f l1)) by (apply filter_In; auto).
      rewrite E1 in *. contradiction.
    + assert (In r (filter f l2)) by (apply filter_In; auto).
      rewrite E2 in *. contradiction.
  - simpl in E. injection E as _ E2. destruct k; discriminate.
Qed.

End StoreFacts.

(** ** The date filters *)

Section Filters.

Variable LocalTZA : Z -> bool -> Z.
Variable legacyParse : jsstring -> timevalue.

Lemma str_eqb_eq (a b : jsstring) : str_eqb a b = true <-> a = b.
Proof.
  unfold str_eqb. destruct (list_eq_dec Z.eq_dec a b); split; congruence.
Qed.

Lemma str_eqb_neq (a b : jsstring) : str_eqb a b = false <-> a <> b.
Proof.
  unfold str_eqb. destruct (list_eq_dec Z.eq_dec a b); split; congruence.
Qed.

Lemma filter_all {A} (f : A -> bool) (l : list A) :
  (forall x, In x l -> f x = true) -> filter f l = l.
Proof.
  induction l as [| y l IH]; simpl; intros H; auto.
  rewrite (H y) by auto. f_equal. apply IH. auto.
Qed.

(** [weekAgo]: the same local time of day, seven local days earlier. *)
Lemma weekAgo_value (now : Z) :
  setDate LocalTZA (Some now) (num_sub (getDate LocalTZA (Some now)) 7)
  = TimeClip (UTC LocalTZA (LocalTime LocalTZA now - 7 * msPerDay)).
Proof.
  unfold setDate, getDate, num_sub.
  rewrite MakeDay_same_month. f_equal. f_equal.
  pose proof (Day_TimeWithinDay (LocalTime LocalTZA now)) as E.
  unfold MakeDate, msPerDay in *. lia.
Qed.

Lemma monthAgo_value (now : Z) :
  setMonth LocalTZA (Some now) (num_sub (getMonth LocalTZA (Some now)) 1)
  = TimeClip
      (UTC LocalTZA
         (MakeDate (monthAgoDay LocalTZA now)
            (TimeWithinDay (LocalTime LocalTZA now)))).
Proof. unfold setMonth, getMonth, num_sub, monthAgoDay. reflexivity. Qed.

Lemma Date_copy_valid (now : Z) :
  validTime now -> Date_copy (Some now) = Some now.
Proof.
  unfold validTime, Date_copy, TimeClip. intros V.
  destruct (Z.leb_spec (Z.abs now) maxTime); [reflexivity | lia].
Qed.

Lemma keepExpense_week (now : Z) (r : Row) :
  validTime now ->
  keepExpense LocalTZA legacyParse (Some now) (js "week") r
  = date_geb (Date_parse legacyParse (date r))
      (TimeClip (UTC LocalTZA (LocalTime LocalTZA now - 7 * msPerDay))).
Proof.
  intros V. unfold keepExpense. rewrite (Date_copy_valid now V), weekAgo_value.
  replace (str_eqb (js "week") (js "all")) with false by reflexivity.
  replace (str_eqb (js "week") (js "week")) with true by reflexivity.
  reflexivity.
Qed.

Lemma keepExpense_month (now : Z) (r : Row) :
  validTime now ->
  keepExpense LocalTZA legacyParse (Some now) (js "month") r
  = date_geb (Date_parse legacyParse (date r))
      (TimeClip
         (UTC LocalTZA
            (MakeDate (monthAgoDay LocalTZA now)
               (TimeWithinDay (LocalTime LocalTZA now))))).
Proof.
  intros V. unfold keepExpense. rewrite (Date_copy_valid now V), monthAgo_value.
  replace (str_eqb (js "month") (js "all")) with false by reflexivity.
  replace (str_eqb (js "month") (js "week")) with false by reflexivity.
  replace (str_eqb (js "month") (js "month")) with true by reflexivity.
  reflexivity.
Qed.

(** A stored date, read by [new Date]. *)
Lemma Date_parse_stored (t0 : Z) :
  validTime t0 ->
  Date_parse legacyParse (todayString t0) = Some (MakeDate (Day t0) 0).
Proof.
  intros V. unfold Date_parse.
  rewrite todayString_isoDatePart, parse_isoDatePart by exact V.
  reflexivity.
Qed.

(** The month-ago day lies 28 to 31 days back. *)
Lemma monthAgoDay_range (now : Z) :
  Day (LocalTime LocalTZA now) - 31 <= monthAgoDay LocalTZA now
  <= Day (LocalTime LocalTZA now) - 28.
Proof.
  unfold monthAgoDay. set (l := LocalTime LocalTZA now).
  pose proof (MakeDay_fields l) as F.
  pose proof (MonthFromTime_range l) as R.
  pose proof (DayFromYear_succ (YearFromTime l - 1)) as Y.
  replace (YearFromTime l - 1 + 1) with (YearFromTime l) in Y by lia.
  unfold MakeDay in *.
  replace (MonthFromTime l / 12) with 0 in F
    by (Z.to_euclidean_division_equations; lia).
  replace (MonthFromTime l mod 12) with (MonthFromTime l) in F
    by (Z.to_euclidean_division_equations; lia).
  rewrite Z.add_0_r in F.
  destruct (Z.eq_dec (MonthFromTime l) 0) as [E | E].
  - rewrite E in *. change ((0 - 1) / 12) with (-1).
    change ((0 - 1) mod 12) with 11.
    replace (YearFromTime l + -1) with (YearFromTime l - 1) by lia.
    unfold monthStart in *. cbn [Z.eqb] in *.
    destruct (DaysInYear_cases (YearFromTime l - 1)) as [D | D];
      rewrite D in *; cbn [Z.eqb Pos.eqb] in *; lia.
  - replace ((MonthFromTime l - 1) / 12) with 0
      by (Z.to_euclidean_division_equations; lia).
    replace ((MonthFromTime l - 1) mod 12) with (MonthFromTime l - 1)
      by (Z.to_euclidean_division_equations; lia).
    rewrite Z.add_0_r.
    destruct (DaysInYear (YearFromTime l) =? 366);
      assert (C : MonthFromTime l = 1 \/ MonthFromTime l = 2
                  \/ MonthFromTime l = 3 \/ MonthFromTime l = 4
                  \/ MonthFromTime l = 5 \/ MonthFromTime l = 6
                  \/ MonthFromTime l = 7 \/ MonthFromTime l = 8
                  \/ MonthFromTime l = 9 \/ MonthFromTime l = 10
                  \/ MonthFromTime l = 11) by lia;
      repeat destruct C as [C | C]; rewrite C in *;
      unfold monthStart in *; cbn [Z.eqb Pos.eqb Z.sub Z.add Z.opp Z.pos_sub
        Pos.pred_double Pos.succ Pos.add Z.double Z.succ_double Z.pred_double] in *; lia.
Qed.

(** When the month before has today's day of the month, the month-ago day
    is that day of that month. *)
Lemma monthAgoDay_civil (now : Z) :
  let l := LocalTime LocalTZA now in
  let ym := YearFromTime l + (MonthFromTime l - 1) / 12 in
  let mn := (MonthFromTime l - 1) mod 12 in
  let leap := if DaysInYear ym =? 366 then 1 else 0 in
  DateFromTime l <= DaysInMonth mn leap ->
  let t := MakeDate (monthAgoDay LocalTZA now) (TimeWithinDay l) in
  YearFromTime t = ym /\ MonthFromTime t = mn
  /\ DateFromTime t = DateFromTime l.
Proof.
  intros l ym mn leap H t. subst t. unfold monthAgoDay. fold l.
  apply MakeDay_civil.
  - fold ym mn leap. pose proof (DateFromTime_range l). lia.
  - apply TimeWithinDay_range.
Qed.

(** C10: with a filter selector other than 'week' and 'month' ('all' or any
    other string) [getFilteredExpenses] returns the list of expenses as it
    is, every row and in the same order. *)
Theorem other_selectors_keep_all (now : Z) (st : State) :
  dateFilter st <> js "week" ->
  dateFilter st <> js "month" ->
  getFilteredExpenses LocalTZA legacyParse now st = expenses st.
Proof.
  intros W M. unfold getFilteredExpenses. apply filter_all.
  intros x _. unfold keepExpense.
  apply str_eqb_neq in W. apply str_eqb_neq in M. rewrite W, M.
  destruct (str_eqb (dateFilter st) (js "all")); reflexivity.
Qed.

(** C1 (as amended): the 'week' filter keeps exactly the rows whose stored
    date, read as UTC midnight, is at or after weekAgo, the instant with
    today's local time of day seven local days earlier; the boundary is
    inclusive at that instant.  So a row stored 8 or more days before today
    is excluded, and a row stored exactly 7 days before today is included
    only while the local time of day does not exceed the zone's offset from
    UTC (in UTC: at midnight sharp). *)
Theorem week_filter_boundary (now t0 : Z) (st : State) (r : Row) :
  dateFilter st = js "week" ->
  In r (expenses st) ->
  date r = todayString t0 ->
  validTime t0 ->
  0 <= now <= maxTime ->
  zoneWithinDay LocalTZA ->
  let today := Day (LocalTime LocalTZA now) in
  let weekAgo := UTC LocalTZA (LocalTime LocalTZA now - 7 * msPerDay) in
  let shown := getFilteredExpenses LocalTZA legacyParse now st in
  shown
  = filter
      (fun x => date_geb (Date_parse legacyParse (date x)) (Some weekAgo))
      (expenses st)
  /\ (Day t0 <= today - 8 -> ~ In r shown)
  /\ (Day t0 = today - 7 ->
      (In r shown
       <-> TimeWithinDay (LocalTime LocalTZA now)
           <= LocalTZA (LocalTime LocalTZA now - 7 * msPerDay) false)).
Proof.
  intros F I D V N ZW today weekAgo shown.
  assert (C : TimeClip weekAgo = Some weekAgo).
  { unfold TimeClip. replace (Z.abs weekAgo <=? maxTime) with true; auto.
    symmetry. apply Z.leb_le. subst weekAgo. unfold UTC, LocalTime.
    pose proof (ZW now true).
    pose proof (ZW (now + LocalTZA now true - 7 * msPerDay) false).
    unfold msPerDay, maxTime in *. lia. }
  assert (S : shown
              = filter
                  (fun x =>
                     date_geb (Date_parse legacyParse (date x)) (Some weekAgo))
                  (expenses st)).
  { subst shown. unfold getFilteredExpenses. rewrite F.
    apply filter_ext. intros x.
    rewrite keepExpense_week by (unfold validTime, maxTime in *; lia).
    fold weekAgo. rewrite C. reflexivity. }
  split; [exact S |].
  assert (K : In r shown <-> weekAgo <= MakeDate (Day t0) 0).
  { rewrite S, filter_In, D, (Date_parse_stored _ V). simpl.
    rewrite Z.leb_le. tauto. }
  pose proof (Day_TimeWithinDay (LocalTime LocalTZA now)) as E.
  pose proof (TimeWithinDay_range (LocalTime LocalTZA now)) as R.
  pose proof (ZW (LocalTime LocalTZA now - 7 * msPerDay) false) as B.
  rewrite K. subst weekAgo today. unfold UTC, MakeDate, msPerDay in *.
  split; intros H; [| split; intros G]; lia.
Qed.

(** C2 (as amended): the 'month' filter keeps exactly the rows whose stored
    date, read as UTC midnight, is at or after monthAgo, the instant with
    today's local time of day on the month-ago day (today's day of the
    month, one month back).  So a row stored before the month-ago day is
    excluded, and a row stored exactly on it is included only while the
    local time of day does not exceed the zone's offset from UTC (in UTC: at
    midnight sharp). *)
Theorem month_filter_boundary (now t0 : Z) (st : State) (r : Row) :
  dateFilter st = js "month" ->
  In r (expenses st) ->
  date r = todayString t0 ->
  validTime t0 ->
  0 <= now <= maxTime ->
  zoneWithinDay LocalTZA ->
  let timeOfDay := TimeWithinDay (LocalTime LocalTZA now) in
  let monthAgo :=
    UTC LocalTZA (MakeDate (monthAgoDay LocalTZA now) timeOfDay) in
  let shown := getFilteredExpenses LocalTZA legacyParse now st in
  shown
  = filter
      (fun x => date_geb (Date_parse legacyParse (date x)) (Some monthAgo))
      (expenses st)
  /\ (Day t0 < monthAgoDay LocalTZA now -> ~ In r shown)
  /\ (Day t0 = monthAgoDay LocalTZA now ->
      (In r shown
       <-> timeOfDay
           <= LocalTZA (MakeDate (monthAgoDay LocalTZA now) timeOfDay) false)).
Proof.
  intros F I D V N ZW timeOfDay monthAgo shown.
  assert (S : shown
              = filter
                  (fun x =>
                     date_geb (Date_parse legacyParse (date x))
                       (TimeClip monthAgo))
                  (expenses st)).
  { subst shown. unfold getFilteredExpenses. rewrite F.
    apply filter_ext. intros x. apply keepExpense_month.
    unfold validTime, maxTime in *. lia. }
  assert (K : In r shown
              <-> date_geb (Some (MakeDate (Day t0) 0)) (TimeClip monthAgo)
                  = true).
  { rewrite S, filter_In, D, (Date_parse_stored _ V). tauto. }
  clearbody shown.
  pose proof (monthAgoDay_range now) as MR.
  pose proof (Day_TimeWithinDay (LocalTime LocalTZA now)) as E.
  pose proof (TimeWithinDay_range (LocalTime LocalTZA now)) as R.
  pose proof (ZW now true) as B1.
  fold timeOfDay in E, R.
  assert (M : monthAgo
              = monthAgoDay LocalTZA now * msPerDay + timeOfDay
                - LocalTZA
                    (MakeDate (monthAgoDay LocalTZA now) timeOfDay) false)
    by (subst monthAgo; unfold UTC, MakeDate; reflexivity).
  pose proof (ZW (MakeDate (monthAgoDay LocalTZA now) timeOfDay) false) as B.
  revert S K MR E R B M.
  generalize (LocalTZA (MakeDate (monthAgoDay LocalTZA now) timeOfDay) false).
  generalize (monthAgoDay LocalTZA now). clearbody monthAgo timeOfDay.
  intros bday tz S K MR E R B M.
  assert (C : TimeClip monthAgo = Some monthAgo).
  { unfold TimeClip. replace (Z.abs monthAgo <=? maxTime) with true; auto.
    symmetry. apply Z.leb_le.
    unfold LocalTime, MakeDate, msPerDay, maxTime in *. lia. }
  rewrite C in S, K. split; [exact S |].
  rewrite K. cbn [date_geb]. rewrite Z.leb_le.
  unfold MakeDate, msPerDay in *.
  split; intros H; [| split; intros G]; lia.
Qed.

End Filters.

(** ** Adding, deleting, setting up *)

Section Handlers.

Lemma addExpense_accepted (now : Z) (t : Table) (st : State) :
  validSubmission st ->
  addExpense now (Some t) st
  = mkOutcome
      (Some (mkTable (rows t ++ [newExpense now t st])
               (id (newExpense now t st))))
      (mkState (orderByDateDesc (rows t ++ [newExpense now t st])) [] [] []
         (dateFilter st))
      [].
Proof.
  intros [A C]. apply positive_iff in A. unfold addExpense. rewrite A.
  destruct (trim (categoryText st)) as [| c k] eqn:E; [congruence |].
  cbn [truthy negb]. unfold insertExpense, table, bind.
  apply orb_false_iff in A. destruct A as [A _]. rewrite A.
  unfold newExpense. rewrite E. reflexivity.
Qed.

Lemma addExpense_no_table (now : Z) (st : State) :
  validSubmission st ->
  addExpense now None st = mkOutcome None st [js "Error: " ++ noSuchTable].
Proof.
  intros [A C]. apply positive_iff in A. unfold addExpense. rewrite A.
  destruct (trim (categoryText st)) as [| c k] eqn:E; [congruence |].
  reflexivity.
Qed.

Lemma addExpense_bad_amount (now : Z) (db : DB) (st : State) :
  isNaN (parseFloat (amountText st)) = true
  \/ num_leb (parseFloat (amountText st)) zero = true ->
  addExpense now db st = mkOutcome db st [js "Please enter a valid amount"].
Proof.
  intros H. unfold addExpense.
  replace (isNaN (parseFloat (amountText st))
           || num_leb (parseFloat (amountText st)) zero) with true; auto.
  symmetry. apply orb_true_iff. exact H.
Qed.

Lemma addExpense_bad_category (now : Z) (db : DB) (st : State) :
  trim (categoryText st) = [] ->
  exists m, addExpense now db st = mkOutcome db st [m].
Proof.
  intros H. unfold addExpense.
  destruct (isNaN (parseFloat (amountText st))
            || num_leb (parseFloat (amountText st)) zero); eauto.
  rewrite H. cbn [truthy negb]. eauto.
Qed.

Lemma validSubmission_dec (st : State) :
  validSubmission st
  \/ (isNaN (parseFloat (amountText st)) = true
      \/ num_leb (parseFloat (amountText st)) zero = true)
  \/ trim (categoryText st) = [].
Proof.
  unfold validSubmission.
  destruct (isNaN (parseFloat (amountText st))
            || num_leb (parseFloat (amountText st)) zero) eqn:A.
  - right. left. apply orb_true_iff. exact A.
  - apply positive_iff in A.
    destruct (trim (categoryText st)); [auto | left; split; congruence].
Qed.

(** What [addExpense] does to the rows of the store: nothing, or one row
    more, the one of a valid submission. *)
Lemma addExpense_rows (now : Z) (db : DB) (st : State) :
  dbRows (out_db (addExpense now db st)) = dbRows db
  \/ exists t,
       db = Some t /\ validSubmission st
       /\ dbRows (out_db (addExpense now db st))
          = dbRows db ++ [newExpense now t st].
Proof.
  destruct (validSubmission_dec st) as [V | [B | B]].
  - destruct db as [t |].
    + right. exists t. rewrite (addExpense_accepted now t st V). auto.
    + left. rewrite (addExpense_no_table now st V). reflexivity.
  - left. rewrite (addExpense_bad_amount now db st B). reflexivity.
  - left. destruct (addExpense_bad_category now db st B) as [m ->].
    reflexivity.
Qed.

(** C4: [addExpense] rejects the submission, leaving the store as it was,
    when the amount is not numeric (it does not start like a number, so
    [parseFloat] gives NaN) or parses to a value less than or equal to 0;
    and whatever the input, the store ends with the rows it had or with one
    more row, whose amount is the parsed one and is greater than 0. *)
Theorem amount_validation (now : Z) (db : DB) (st : State) :
  let a := parseFloat (amountText st) in
  let o := addExpense now db st in
  (numericInput (amountText st) = false \/ num_leb a zero = true ->
   out_db o = db /\ out_alerts o = [js "Please enter a valid amount"])
  /\ (dbRows (out_db o) = dbRows db
      \/ exists r,
           dbRows (out_db o) = dbRows db ++ [r]
           /\ amount r = a /\ num_gtb (amount r) zero = true).
Proof.
  intros a o. split.
  - intros B. subst o. rewrite (addExpense_bad_amount now db st); auto.
    destruct B as [B | B]; [left | right; exact B].
    rewrite parseFloat_isNaN, B. reflexivity.
  - destruct (addExpense_rows now db st) as [S | (t & _ & V & S)]; auto.
    right. exists (newExpense now t st). split; [exact S |].
    split; [reflexivity | exact (proj1 V)].
Qed.

(** C6: [deleteExpense] removes from the store exactly the rows whose id is
    the given one; every other row stays, unchanged and in place. *)
Theorem delete_removes_exactly (i : Z) (db : DB) (st : State) :
  let o := deleteExpense i db st in
  dbRows (out_db o) = filter (fun r => negb (id r =? i)) (dbRows db)
  /\ (forall r, In r (dbRows (out_db o)) <-> In r (dbRows db) /\ id r <> i)
  /\ (db <> None -> expenses (out_state o) = orderByDateDesc (dbRows (out_db o))).
Proof.
  intros o.
  assert (E : dbRows (out_db o)
              = filter (fun r => negb (id r =? i)) (dbRows db)).
  { subst o. destruct db as [t |]; reflexivity. }
  split; [exact E |]. split.
  - intros r. rewrite E, filter_In, negb_true_iff, Z.eqb_neq. tauto.
  - subst o. destruct db as [t |]; [reflexivity | congruence].
Qed.

(** C8: when validation fails (the amount is not numeric or not positive,
    or the category is empty once trimmed) [addExpense] changes nothing: the
    store, the form fields and the loaded list are as before, and one alert
    is raised. *)
Theorem invalid_submission_blocked (now : Z) (db : DB) (st : State) :
  numericInput (amountText st) = false
  \/ num_leb (parseFloat (amountText st)) zero = true
  \/ trim (categoryText st) = [] ->
  let o := addExpense now db st in
  out_db o = db /\ out_state o = st /\ exists m, out_alerts o = [m].
Proof.
  intros H o. subst o.
  assert (E : exists m, addExpense now db st = mkOutcome db st [m]).
  { destruct H as [H | [H | H]].
    - eexists. apply addExpense_bad_amount. left.
      rewrite parseFloat_isNaN, H. reflexivity.
    - eexists. apply addExpense_bad_amount. auto.
    - apply addExpense_bad_category, H. }
  destruct E as [m ->]. cbn. eauto.
Qed.

(** C9: the setup run at launch drops and recreates the table: whatever the
    store held, it ends with an empty table and a fresh id counter, and the
    list loaded right after is empty. *)
Theorem setup_discards_everything (db : DB) (st : State) :
  let o := setup db st in
  out_db o = Some (mkTable [] 0)
  /\ expenses (out_state o) = []
  /\ loadExpenses (out_db o) (out_state o) = Ok (out_state o).
Proof. intros o. subst o. repeat split. Qed.

End Handlers.

Section FoodExample.

Variable LocalTZA : Z -> bool -> Z.
Variable legacyParse : jsstring -> timevalue.


End FoodExample.

(** ** Worked instances *)

Lemma sample_valid_times :
  validTime noon_2024_03_15
  /\ validTime (noon_2024_03_15 - 7 * msPerDay)
  /\ validTime (noon_2024_03_15 - 29 * msPerDay)
  /\ 0 <= noon_2024_03_15 <= maxTime.
Proof.
  unfold validTime, maxTime, noon_2024_03_15, msPerDay. lia.
Defined.

Lemma utcZone_within_day : zoneWithinDay utcZone.
Proof. intros t b. unfold utcZone, msPerDay. lia. Defined.

(** At noon UTC on 2024-03-15 the 'week' view does not show an expense
    stored on 2024-03-08, seven days before. *)
Lemma week_filter_drops_seventh_day :
  let r := expenseOn 1 "2024-03-08" in
  let st := viewOf [r] "week" in
  date r = todayString (noon_2024_03_15 - 7 * msPerDay)
  /\ Day (noon_2024_03_15 - 7 * msPerDay) = Day noon_2024_03_15 - 7
  /\ In r (expenses st)
  /\ ~ In r (getFilteredExpenses utcZone isoOnly noon_2024_03_15 st).
Proof.
  vm_compute. repeat split; auto. 
Qed.

Lemma week_filter_boundary_witness :
  ~ In (expenseOn 1 "2024-03-08")
      (getFilteredExpenses utcZone isoOnly noon_2024_03_15
         (viewOf [expenseOn 1 "2024-03-08"] "week")).
Proof.
  intros H.
  destruct
    (week_filter_boundary utcZone isoOnly noon_2024_03_15
       (noon_2024_03_15 - 7 * msPerDay)
       (viewOf [expenseOn 1 "2024-03-08"] "week")
       (expenseOn 1 "2024-03-08"))
    as (_ & _ & B).
  - reflexivity.
  - left. reflexivity.
  - vm_compute. reflexivity.
  - apply sample_valid_times.
  - apply sample_valid_times.
  - apply utcZone_within_day.
  - assert (E : Day (noon_2024_03_15 - 7 * msPerDay)
                = Day (LocalTime utcZone noon_2024_03_15) - 7)
      by (vm_compute; reflexivity).
    pose proof (proj1 (B E) H) as L. vm_compute in L. apply L. reflexivity.
Defined.

(** At noon UTC on 2024-03-15 the 'month' view does not show an expense
    stored on 2024-02-15, one calendar month before. *)
Lemma month_filter_drops_month_ago_day :
  let r := expenseOn 1 "2024-02-15" in
  let st := viewOf [r] "month" in
  date r = todayString (noon_2024_03_15 - 29 * msPerDay)
  /\ Day (noon_2024_03_15 - 29 * msPerDay)
     = monthAgoDay utcZone noon_2024_03_15
  /\ In r (expenses st)
  /\ ~ In r (getFilteredExpenses utcZone isoOnly noon_2024_03_15 st).
Proof.
  vm_compute. repeat split; auto.
Qed.

Lemma month_filter_boundary_witness :
  ~ In (expenseOn 1 "2024-02-15")
      (getFilteredExpenses utcZone isoOnly noon_2024_03_15
         (viewOf [expenseOn 1 "2024-02-15"] "month")).
Proof.
  intros H.
  destruct
    (month_filter_boundary utcZone isoOnly noon_2024_03_15
       (noon_2024_03_15 - 29 * msPerDay)
       (viewOf [expenseOn 1 "2024-02-15"] "month")
       (expenseOn 1 "2024-02-15"))
    as (_ & _ & B).
  - reflexivity.
  - left. reflexivity.
  - vm_compute. reflexivity.
  - apply sample_valid_times.
  - apply sample_valid_times.
  - apply utcZone_within_day.
  - assert (E : Day (noon_2024_03_15 - 29 * msPerDay)
                = monthAgoDay utcZone noon_2024_03_15)
      by (vm_compute; reflexivity).
    pose proof (proj1 (B E) H) as L. vm_compute in L. apply L. reflexivity.
Defined.

Lemma other_selectors_keep_all_witness :
  getFilteredExpenses utcZone isoOnly noon_2024_03_15
    (viewOf [expenseOn 1 "2024-03-15"; expenseOn 2 "2023-01-01"] "year")
  = [expenseOn 1 "2024-03-15"; expenseOn 2 "2023-01-01"].
Proof.
  apply (other_selectors_keep_all utcZone isoOnly noon_2024_03_15
           (viewOf [expenseOn 1 "2024-03-15"; expenseOn 2 "2023-01-01"]
              "year")).
  - vm_compute. discriminate.
  - vm_compute. discriminate.
Defined.

Lemma foodForm_valid (l : list Row) : validSubmission (foodForm l).
Proof. split; [vm_compute; reflexivity | vm_compute; discriminate]. Defined.

Lemma invalid_submission_blocked_witness :
  let st := mkState [expenseOn 1 "2024-03-15"] (js "abc") (js "Food") (js "x")
              (js "all") in
  let db := Some (mkTable [expenseOn 1 "2024-03-15"] 1) in
  out_db (addExpense noon_2024_03_15 db st) = db
  /\ out_state (addExpense noon_2024_03_15 db st) = st
  /\ exists m, out_alerts (addExpense noon_2024_03_15 db st) = [m].
Proof.
  intros st db.
  apply (invalid_submission_blocked noon_2024_03_15 db st).
  left. vm_compute. reflexivity.
Defined.



(** Whatever the order among equal dates, a row with a later date stays
    ahead: after the clock was set back a day, the Food row added at noon
    comes second. *)
Remark food_example_after_later_row :
  let later := mkRow 1 (parseFloat (js "3")) (js "Books") None
                 (todayString (noon_2024_03_15 + msPerDay)) in
  let o :=
    addExpense noon_2024_03_15 (Some (mkTable [later] 1)) (foodForm [later]) in
  map id
    (getFilteredExpenses utcZone isoOnly noon_2024_03_15
       (setDateFilter (js "all") (out_state o)))
  = [1; 2].
Proof. vm_compute. reflexivity. Qed.

(** The stored date is the UTC day.  At 01:00 UTC on 2024-03-15 a device
    five hours behind UTC is still on the evening of the 14th: the date
    stored is 2024-03-15, while [getDate] answers 14. *)
Remark stored_day_is_utc_day :
  let t := noon_2024_03_15 - 11 * 3600000 in
  todayString t = js "2024-03-15"
  /\ getDate (fixedZone (-18000000)) (Some t) = Some 14
  /\ getDate utcZone (Some t) = Some 15.
Proof. vm_compute. repeat split. Qed.

(** Inputs that are not numbers, and amounts that are not positive. *)
Example parseFloat_rejects :
  isNaN (parseFloat (js "abc")) = true
  /\ isNaN (parseFloat (js "")) = true
  /\ isNaN (parseFloat (js ".")) = true
  /\ num_leb (parseFloat (js "0")) zero = true
  /\ num_leb (parseFloat (js "-4.20")) zero = true
  /\ num_leb (parseFloat (js "1e-400")) zero = true.
Proof. vm_compute. repeat split. Qed.

(** 12.50 is read as the Number 12.5, that is 25/2. *)
Example parseFloat_12_50 :
  parseFloat (js "12.50") = binary_normalize prec emax 25 (-1) false
  /\ twelve_fifty = binary_normalize prec emax 25 (-1) false.
Proof. vm_compute. split; reflexivity. Qed.

(** [parseFloat] reads the longest numeric prefix. *)
Example parseFloat_prefix :
  parseFloat (js " 12.50 dollars") = twelve_fifty
  /\ parseFloat (js "12.50") = twelve_fifty.
Proof. vm_compute. repeat split. Qed.

(** * The component over a session *)

Section Sessions.

Lemma run_app (es1 es2 : list Event) (o : Outcome) :
  run (es1 ++ es2) o = run es2 (run es1 o).
Proof.
  revert o. induction es1 as [| e es1 IH]; intros o; simpl; auto.
Qed.

Lemma run_invariant (I : DB -> State -> Prop) (ok : Event -> Prop) :
  (forall e db st,
     ok e -> I db st ->
     I (out_db (handle e db st)) (out_state (handle e db st))) ->
  forall es o,
    Forall ok es ->
    I (out_db o) (out_state o) ->
    I (out_db (run es o)) (out_state (run es o)).
Proof.
  intros step. induction es as [| e es IH]; intros o F H; simpl; auto.
  inversion F; subst. apply IH; auto.
Qed.

(** What one event does to the store: nothing, one row more (a valid
    submission), or the rows of one id less. *)
Lemma handle_store (e : Event) (db : DB) (st : State) :
  out_db (handle e db st) = db
  \/ (exists now t,
        e = PressAdd now /\ db = Some t /\ validSubmission st
        /\ out_db (handle e db st)
           = Some (mkTable (rows t ++ [newExpense now t st])
                     (id (newExpense now t st))))
  \/ (exists i t,
        e = PressDelete i /\ db = Some t
        /\ out_db (handle e db st)
           = Some (mkTable (filter (fun r => negb (id r =? i)) (rows t))
                     (seq t))).
Proof.
  destruct e as [s | s | s | f | now | i]; simpl; auto.
  - destruct (validSubmission_dec st) as [V | [B | B]].
    + destruct db as [t |].
      * right. left. exists now, t.
        rewrite (addExpense_accepted now t st V). auto.
      * left. rewrite (addExpense_no_table now st V). reflexivity.
    + left. rewrite (addExpense_bad_amount now db st B). reflexivity.
    + left. destruct (addExpense_bad_category now db st B) as [m ->].
      reflexivity.
  - destruct db as [t |]; [| auto].
    right. right. exists i, t. auto.
Qed.


Lemma id_sorted_filter (f : Row -> bool) (l : list Row) :
  StronglySorted (fun a b => id a < id b) l ->
  StronglySorted (fun a b => id a < id b) (filter f l).
Proof.
  induction 1 as [| x l S IH F]; simpl; [constructor |].
  destruct (f x); auto. constructor; auto.
  rewrite Forall_forall in *. intros y H. apply filter_In in H. apply F, H.
Qed.

Lemma id_sorted_snoc (l : list Row) (r : Row) :
  StronglySorted (fun a b => id a < id b) l ->
  Forall (fun x => id x < id r) l ->
  StronglySorted (fun a b => id a < id b) (l ++ [r]).
Proof.
  induction 1 as [| x l S IH F]; intros H; simpl.
  - repeat constructor.
  - inversion H; subst. constructor; auto.
    apply Forall_app. split; auto.
Qed.

Lemma id_sorted_NoDup (l : list Row) :
  StronglySorted (fun a b => id a < id b) l -> NoDup (map id l).
Proof.
  induction 1 as [| x l S IH F]; simpl; constructor; auto.
  intros H. apply in_map_iff in H. destruct H as (y & E & I).
  rewrite Forall_forall in F. apply F in I. lia.
Qed.

Lemma id_sorted_inj (l : list Row) (x y : Row) :
  StronglySorted (fun a b => id a < id b) l ->
  In x l -> In y l -> id x = id y -> x = y.
Proof.
  induction 1 as [| z l S IH F]; simpl; [tauto |].
  rewrite Forall_forall in F.
  intros [-> | Hx] [-> | Hy] E; auto.
  - apply F in Hy. lia.
  - apply F in Hx. lia.
Qed.

Lemma newExpense_id (now : Z) (t : Table) (st : State) :
  id (newExpense now t st) = Z.max (seq t) (maxId (rows t)) + 1.
Proof. reflexivity. Qed.

Lemma maxId_nonneg (l : list Row) : 0 <= maxId l.
Proof. induction l; simpl; lia. Qed.

Lemma idsAscend_step (e : Event) (t : Table) (st : State) :
  idsAscend t ->
  exists t',
    out_db (handle e (Some t) st) = Some t'
    /\ idsAscend t' /\ seq t <= seq t'
    /\ (forall y, In y (rows t') -> id y <= seq t -> In y (rows t)).
Proof.
  intros [S B].
  destruct (handle_store e (Some t) st)
    as [E | [(now & t0 & _ & Et & V & E) | (i & t0 & _ & Et & E)]].
  - exists t. rewrite E. repeat split; auto. lia.
  - injection Et as <-. eexists. split; [exact E |].
    assert (M : forall x, In x (rows t) -> id x <= seq t).
    { rewrite Forall_forall in B. intros x H. apply B in H. lia. }
    pose proof (newExpense_id now t st) as N.
    pose proof (maxId_nonneg (rows t)) as P.
    unfold idsAscend. cbn [rows seq]. repeat split.
    + apply id_sorted_snoc; auto. rewrite Forall_forall. intros x H.
      apply M in H. lia.
    + apply Forall_app. split.
      * rewrite Forall_forall in *. intros x H. apply B in H. lia.
      * constructor; [| constructor]. lia.
    + lia.
    + intros y H L. apply in_app_or in H. destruct H as [H | [<- | []]]; auto.
      lia.
  - injection Et as <-. eexists. split; [exact E |].
    unfold idsAscend. cbn [rows seq]. repeat split.
    + apply id_sorted_filter, S.
    + rewrite Forall_forall in *. intros x H. apply filter_In in H.
      apply B, H.
    + lia.
    + intros y H _. apply filter_In in H. tauto.
Qed.

Lemma launch_table (db : DB) :
  out_db (launch db) = Some (mkTable [] 0) /\ expenses (out_state (launch db)) = [].
Proof. split; reflexivity. Qed.

Lemma inSync_step (e : Event) (db : DB) (st : State) :
  inSync db st -> inSync (out_db (handle e db st)) (out_state (handle e db st)).
Proof.
  unfold inSync. intros H.
  destruct e as [s | s | s | f | now | i]; simpl; auto.
  - destruct (validSubmission_dec st) as [V | [B | B]].
    + destruct db as [t |].
      * rewrite (addExpense_accepted now t st V). reflexivity.
      * rewrite (addExpense_no_table now st V). exact H.
    + rewrite (addExpense_bad_amount now db st B). exact H.
    + destruct (addExpense_bad_category now db st B) as [m ->]. exact H.
  - destruct db as [t |]; [reflexivity | exact H].
Qed.


Lemma session_ids (db : DB) (es : list Event) :
  exists t, out_db (session db es) = Some t /\ idsAscend t.
Proof.
  unfold session.
  apply (run_invariant (fun d _ => exists t, d = Some t /\ idsAscend t)
           (fun _ => True)).
  - intros e d st _ (t & -> & A).
    destruct (idsAscend_step e t st A) as (t' & E & A' & _). eauto.
  - clear. induction es; constructor; auto.
  - exists (mkTable [] 0). split; [reflexivity |]. split; constructor.
Qed.

(** X2: after a launch the table is always there, and its rows carry
    pairwise different ids. *)
Theorem session_ids_distinct (db : DB) (es : list Event) :
  exists t,
    out_db (session db es) = Some t
    /\ NoDup (map id (rows t))
    /\ (forall x y, In x (rows t) -> In y (rows t) -> id x = id y -> x = y).
Proof.
  destruct (session_ids db es) as (t & E & S & B). exists t.
  split; [exact E |]. split; [apply id_sorted_NoDup, S |].
  intros x y. apply id_sorted_inj, S.
Qed.

(** X3: an id is never given twice within a session: a row found later
    under the id of a row that was in the store is that same row. *)
Theorem session_ids_never_reused (db : DB) (es1 es2 : list Event) (x y : Row) :
  In x (dbRows (out_db (session db es1))) ->
  In y (dbRows (out_db (session db (es1 ++ es2)))) ->
  id x = id y ->
  x = y.
Proof.
  unfold session. rewrite run_app. intros Hx Hy E.
  destruct (session_ids db es1) as (t1 & E1 & A1). unfold session in E1.
  rewrite E1 in Hx. cbn [dbRows] in Hx.
  assert (J : exists t,
            out_db (run es2 (run es1 (launch db))) = Some t
            /\ idsAscend t /\ seq t1 <= seq t
            /\ (forall z, In z (rows t) -> id z <= seq t1 -> In z (rows t1))).
  { apply (run_invariant
             (fun d _ => exists t,
                d = Some t /\ idsAscend t /\ seq t1 <= seq t
                /\ (forall z, In z (rows t) -> id z <= seq t1 -> In z (rows t1)))
             (fun _ => True)).
    - intros e d st _ (t & -> & A & L & K).
      destruct (idsAscend_step e t st A) as (t' & E' & A' & L' & K').
      exists t'. split; [exact E' |]. split; [exact A' |].
      split; [lia |].
      intros z Hz Lz. apply K; auto. apply K'; auto. lia.
    - clear. induction es2; constructor; auto.
    - exists t1. split; [exact E1 |]. split; [exact A1 |].
      split; [lia | auto]. }
  destruct J as (t & Et & A & L & K). rewrite Et in Hy. cbn [dbRows] in Hy.
  destruct A1 as [S1 B1]. rewrite Forall_forall in B1.
  assert (In y (rows t1)) by (apply K; auto; apply B1 in Hx; lia).
  eapply id_sorted_inj; eauto.
Qed.

(** X4: throughout a session the list on the screen is the content of the
    store in the order of the SELECT: the same rows, each as often, no row
    before one of a greater date. *)
Theorem session_list_in_sync (db : DB) (es : list Event) :
  let o := session db es in
  expenses (out_state o) = orderByDateDesc (dbRows (out_db o))
  /\ Permutation (expenses (out_state o)) (dbRows (out_db o))
  /\ Sorted notBefore (expenses (out_state o)).
Proof.
  intros o.
  assert (S : inSync (out_db o) (out_state o)).
  { subst o. unfold session.
    apply (run_invariant inSync (fun _ => True)).
    - intros e d st _. apply inSync_step.
    - clear. induction es; constructor; auto.
    - reflexivity. }
  unfold inSync in S. rewrite S.
  split; [reflexivity |].
  split; [apply orderByDateDesc_perm | apply orderByDateDesc_sorted].
Qed.

End Sessions.

(** * The order of the list *)

Section ListOrder.

Lemma str_ltb_trans (a : jsstring) :
  forall b c, str_ltb a b = true -> str_ltb b c = true -> str_ltb a c = true.
Proof.
  induction a as [| x a IH]; intros [| y b] [| z c]; simpl; try congruence.
  intros H1 H2.
  destruct (Z.ltb_spec x y), (Z.eqb_spec x y), (Z.ltb_spec y z),
    (Z.eqb_spec y z), (Z.ltb_spec x z), (Z.eqb_spec x z);
    simpl in *; try lia; try congruence.
  eapply IH; eauto.
Qed.

Lemma str_ltb_total (a : jsstring) :
  forall b, str_ltb a b = false -> str_ltb b a = false -> a = b.
Proof.
  induction a as [| x a IH]; intros [| y b]; simpl; try congruence.
  intros H1 H2.
  destruct (Z.ltb_spec x y), (Z.eqb_spec x y), (Z.ltb_spec y x),
    (Z.eqb_spec y x); simpl in *; try lia; try congruence.
  f_equal; auto.
Qed.

(** Not less is passed on: the order is total. *)
Lemma str_geb_trans (a b c : jsstring) :
  str_ltb a b = false -> str_ltb b c = false -> str_ltb a c = false.
Proof.
  intros H1 H2. destruct (str_ltb a c) eqn:H3; auto.
  destruct (str_ltb b a) eqn:H4.
  - rewrite (str_ltb_trans b a c H4 H3) in H2. discriminate.
  - rewrite (str_ltb_total a b H1 H4) in H3. congruence.
Qed.

(** Decimal numbers of one width compare as their values do. *)
Lemma str_ltb_padDigits (n : nat) :
  forall a b x y,
    0 <= a < 10 ^ Z.of_nat n ->
    0 <= b < 10 ^ Z.of_nat n ->
    str_ltb (padDigits n a ++ x) (padDigits n b ++ y)
    = (a <? b) || ((a =? b) && str_ltb x y).
Proof.
  induction n as [| n IH]; intros a b x y A B.
  - simpl in *. assert (a = 0) by lia. assert (b = 0) by lia. subst.
    reflexivity.
  - replace (Z.of_nat (S n)) with (Z.of_nat n + 1) in * by lia.
    rewrite Z.pow_add_r, Z.pow_1_r in * by lia.
    cbn [padDigits]. rewrite <- !app_assoc. cbn [app].
    rewrite IH by (Z.to_euclidean_division_equations; nia).
    cbn [str_ltb].
    assert (0 <= a mod 10 < 10) by (apply Z.mod_pos_bound; lia).
    assert (0 <= b mod 10 < 10) by (apply Z.mod_pos_bound; lia).
    pose proof (Z.div_mod a 10). pose proof (Z.div_mod b 10).
    destruct (str_ltb x y);
      destruct (Z.ltb_spec (a / 10) (b / 10)), (Z.eqb_spec (a / 10) (b / 10)),
        (Z.ltb_spec (48 + a mod 10) (48 + b mod 10)),
        (Z.eqb_spec (48 + a mod 10) (48 + b mod 10)),
        (Z.ltb_spec a b), (Z.eqb_spec a b); simpl; try reflexivity; lia.
Qed.

Lemma fourDigitYear_range (t : Z) :
  fourDigitYear t -> 0 <= YearFromTime t <= 9999.
Proof.
  unfold fourDigitYear. intros V.
  pose proof (YearFromTime_spec t) as S.
  assert (D : -719528 <= Day t <= 2932896)
    by (unfold Day, msPerDay; Z.to_euclidean_division_equations; lia).
  split.
  - destruct (Z.le_gt_cases 0 (YearFromTime t)) as [L | G]; auto.
    assert (M : DayFromYear (YearFromTime t + 1) <= DayFromYear 0)
      by (apply DayFromYear_mono; lia).
    vm_compute (DayFromYear 0) in M. lia.
  - destruct (Z.le_gt_cases (YearFromTime t) 9999) as [L | G]; auto.
    assert (M : DayFromYear 10000 <= DayFromYear (YearFromTime t))
      by (apply DayFromYear_mono; lia).
    vm_compute (DayFromYear 10000) in M. lia.
Qed.

Lemma fourDigitYear_valid (t : Z) : fourDigitYear t -> validTime t.
Proof. unfold fourDigitYear, validTime, maxTime. lia. Qed.

(** Within a year, month and date order the days. *)
Lemma month_date_order (t1 t2 : Z) :
  YearFromTime t1 = YearFromTime t2 ->
  (MonthFromTime t1 + 1 <? MonthFromTime t2 + 1)
  || ((MonthFromTime t1 + 1 =? MonthFromTime t2 + 1)
      && ((DateFromTime t1 <? DateFromTime t2)
          || ((DateFromTime t1 =? DateFromTime t2) && false)))
  = (Day t1 <? Day t2).
Proof.
  intros Y.
  pose proof (DayWithinYear_range t1) as R1.
  pose proof (DayWithinYear_range t2) as R2.
  assert (L : InLeapYear t2 = InLeapYear t1)
    by (unfold InLeapYear; rewrite Y; reflexivity).
  assert (D : (Day t1 <? Day t2) = (DayWithinYear t1 <? DayWithinYear t2)).
  { unfold DayWithinYear. rewrite Y.
    destruct (Z.ltb_spec (Day t1) (Day t2)),
      (Z.ltb_spec (Day t1 - DayFromYear (YearFromTime t2))
         (Day t2 - DayFromYear (YearFromTime t2))); auto; lia. }
  rewrite D. unfold DateFromTime, MonthFromTime. rewrite L in *.
  destruct (InLeapYear_cases t1) as [[E _] | [E _]]; rewrite E in *;
    generalize dependent (DayWithinYear t1);
    generalize dependent (DayWithinYear t2); clear; intros d2 R2 d1 R1;
    repeat match goal with
           | |- context [if ?a <? ?b then _ else _] =>
               destruct (Z.ltb_spec a b)
           end; cbn [monthStart Z.eqb Pos.eqb];
    repeat match goal with
           | |- context [?a <? ?b] => destruct (Z.ltb_spec a b); try lia
           | |- context [?a =? ?b] => destruct (Z.eqb_spec a b); try lia
           end; reflexivity.
Qed.

Lemma stored_dates_text_order (t1 t2 : Z) :
  fourDigitYear t1 ->
  fourDigitYear t2 ->
  str_ltb (todayString t1) (todayString t2) = (Day t1 <? Day t2).
Proof.
  intros F1 F2.
  pose proof (fourDigitYear_range t1 F1) as Y1.
  pose proof (fourDigitYear_range t2 F2) as Y2.
  pose proof (MonthFromTime_range t1) as M1.
  pose proof (MonthFromTime_range t2) as M2.
  pose proof (DateFromTime_range t1) as D1.
  pose proof (DateFromTime_range t2) as D2.
  rewrite !todayString_isoDatePart. unfold isoDatePart, isoYear.
  destruct (Z.leb_spec 0 (YearFromTime t1)); [| lia].
  destruct (Z.leb_spec (YearFromTime t1) 9999); [| lia].
  destruct (Z.leb_spec 0 (YearFromTime t2)); [| lia].
  destruct (Z.leb_spec (YearFromTime t2) 9999); [| lia].
  cbn [andb].
  rewrite str_ltb_padDigits by (simpl; lia).
  cbn [app str_ltb]. rewrite Z.ltb_irrefl, Z.eqb_refl. cbn [orb andb].
  rewrite str_ltb_padDigits by (simpl; lia).
  cbn [app str_ltb]. rewrite Z.ltb_irrefl, Z.eqb_refl. cbn [orb andb].
  rewrite <- (app_nil_r (padDigits 2 (DateFromTime t1))).
  rewrite <- (app_nil_r (padDigits 2 (DateFromTime t2))).
  rewrite str_ltb_padDigits by (simpl; lia).
  cbn [str_ltb].
  pose proof (YearFromTime_spec t1) as S1.
  pose proof (YearFromTime_spec t2) as S2.
  destruct (Z.ltb_spec (YearFromTime t1) (YearFromTime t2)) as [L | L].
  - cbn [orb].
    assert (DayFromYear (YearFromTime t1 + 1) <= DayFromYear (YearFromTime t2))
      by (apply DayFromYear_mono; lia).
    destruct (Z.ltb_spec (Day t1) (Day t2)); [reflexivity | lia].
  - destruct (Z.eqb_spec (YearFromTime t1) (YearFromTime t2)) as [E | E].
    + cbn [orb andb]. apply month_date_order, E.
    + cbn [orb andb].
      assert (DayFromYear (YearFromTime t2 + 1) <= DayFromYear (YearFromTime t1))
        by (apply DayFromYear_mono; lia).
      destruct (Z.ltb_spec (Day t1) (Day t2)); [lia | reflexivity].
Qed.

(** X5: for dates stored in the years 0000 to 9999 the order of the text is
    the order of the days: one stored date is less than another exactly when
    its day is the earlier one, and two stored dates are the same text
    exactly when their days are the same. *)
Theorem stored_dates_order (t1 t2 : Z) :
  fourDigitYear t1 ->
  fourDigitYear t2 ->
  str_ltb (todayString t1) (todayString t2) = (Day t1 <? Day t2)
  /\ (todayString t1 = todayString t2 <-> Day t1 = Day t2).
Proof.
  intros F1 F2. split; [apply stored_dates_text_order; assumption |].
  pose proof (stored_dates_text_order t1 t2 F1 F2) as A.
  pose proof (stored_dates_text_order t2 t1 F2 F1) as B.
  split.
  - intros E. rewrite E, str_ltb_irrefl in A, B.
    symmetry in A, B. apply Z.ltb_ge in A, B. lia.
  - intros E. apply str_ltb_total.
    + rewrite A. apply Z.ltb_ge. lia.
    + rewrite B. apply Z.ltb_ge. lia.
Qed.

End ListOrder.

Section ListPlaces.

Lemma insertDesc_app_past (x : Row) (l1 m : list Row) :
  Forall (fun y => str_ltb (date x) (date y) = true) l1 ->
  insertDesc x (l1 ++ m) = l1 ++ insertDesc x m.
Proof.
  induction 1 as [| y l1 H F IH]; simpl; auto. rewrite H, IH. reflexivity.
Qed.

Lemma insertDesc_app_within (x : Row) (l1 m : list Row) :
  Exists (fun y => str_ltb (date x) (date y) = false) l1 ->
  insertDesc x (l1 ++ m) = insertDesc x l1 ++ m.
Proof.
  induction 1 as [y l1 H | y l1 E IH]; simpl.
  - rewrite H. reflexivity.
  - destruct (str_ltb (date x) (date y)); [rewrite IH |]; reflexivity.
Qed.

Lemma insertDesc_Forall (P : Row -> Prop) (x : Row) (l : list Row) :
  P x -> Forall P l -> Forall P (insertDesc x l).
Proof.
  intros Px. induction 1 as [| y l Py F IH]; simpl.
  - constructor; auto.
  - destruct (str_ltb (date x) (date y)); constructor; auto.
Qed.

Lemma past_or_within (x : Row) (l : list Row) :
  Forall (fun y => str_ltb (date x) (date y) = true) l
  \/ Exists (fun y => str_ltb (date x) (date y) = false) l.
Proof.
  induction l as [| y l [F | E]]; auto.
  destruct (str_ltb (date x) (date y)) eqn:H; auto.
Qed.

(** Where a row appended to the table lands in the SELECT: below the rows
    that are not older, above the older ones, which keep their places. *)
Lemma orderByDateDesc_snoc (l : list Row) (r : Row) :
  exists l1 l2,
    orderByDateDesc l = l1 ++ l2
    /\ orderByDateDesc (l ++ [r]) = l1 ++ r :: l2
    /\ Forall (fun x => str_ltb (date x) (date r) = false) l1
    /\ Forall (fun x => str_ltb (date x) (date r) = true) l2.
Proof.
  induction l as [| x l (l1 & l2 & E1 & E2 & F1 & F2)].
  - exists [], []. repeat split; constructor.
  - cbn [orderByDateDesc fold_right app].
    change (fold_right insertDesc [] l) with (orderByDateDesc l).
    change (fold_right insertDesc [] (l ++ [r]))
      with (orderByDateDesc (l ++ [r])).
    rewrite E1, E2.
    destruct (past_or_within x l1) as [P | W].
    + rewrite !insertDesc_app_past by exact P. cbn [insertDesc].
      destruct (str_ltb (date x) (date r)) eqn:L.
      * exists l1, (insertDesc x l2). repeat split; auto.
        apply insertDesc_Forall; auto.
      * exists (l1 ++ [x]), l2. rewrite <- !app_assoc. cbn [app].
        repeat split; auto.
        -- f_equal. destruct l2 as [| y l2]; [reflexivity |].
           cbn [insertDesc]. inversion F2; subst.
           destruct (str_ltb (date x) (date y)) eqn:K; [| reflexivity].
           rewrite (str_ltb_trans _ _ _ K H1) in L. discriminate.
        -- apply Forall_app. split; auto.
    + rewrite !insertDesc_app_within by exact W.
      exists (insertDesc x l1), l2. repeat split; auto.
      apply insertDesc_Forall; auto.
      apply Exists_exists in W. destruct W as (y & I & K).
      rewrite Forall_forall in F1. eapply str_geb_trans; eauto.
Qed.

Lemma insertDesc_same_date (d : jsstring) (r : Row) (l : list Row) :
  filter (fun x => str_eqb (date x) d) (insertDesc r l)
  = if str_eqb (date r) d
    then r :: filter (fun x => str_eqb (date x) d) l
    else filter (fun x => str_eqb (date x) d) l.
Proof.
  induction l as [| y l IH]; simpl.
  - destruct (str_eqb (date r) d); reflexivity.
  - destruct (str_ltb (date r) (date y)) eqn:L; simpl.
    + rewrite IH. destruct (str_eqb (date r) d) eqn:R; auto.
      destruct (str_eqb (date y) d) eqn:Y; auto.
      apply str_eqb_eq in R. apply str_eqb_eq in Y.
      rewrite R, Y, str_ltb_irrefl in L. discriminate.
    + destruct (str_eqb (date r) d); reflexivity.
Qed.

(** Rows of one date leave the SELECT in the order of the table. *)
Lemma orderByDateDesc_stable (d : jsstring) (l : list Row) :
  filter (fun x => str_eqb (date x) d) (orderByDateDesc l)
  = filter (fun x => str_eqb (date x) d) l.
Proof.
  induction l as [| x l IH]; simpl; auto.
  rewrite insertDesc_same_date.
  change (fold_right insertDesc [] l) with (orderByDateDesc l).
  rewrite IH. reflexivity.
Qed.

(** X6: [loadExpenses] fails only when the table is missing, and then sets
    nothing; otherwise the list it sets holds the rows of the table, each as
    often as the table does, no row before one of a greater date, rows of
    one date in the order of the table; the form and the filter stay as they
    are. *)
Theorem loadExpenses_result (db : DB) (st : State) :
  match loadExpenses db st with
  | Ok st' =>
      Permutation (expenses st') (dbRows db)
      /\ Sorted notBefore (expenses st')
      /\ (forall d,
            filter (fun x => str_eqb (date x) d) (expenses st')
            = filter (fun x => str_eqb (date x) d) (dbRows db))
      /\ db <> None
      /\ amountText st' = amountText st
      /\ categoryText st' = categoryText st
      /\ noteText st' = noteText st
      /\ dateFilter st' = dateFilter st
  | Err _ => db = None
  end.
Proof.
  destruct db as [t |]; cbn; [| reflexivity].
  split; [apply orderByDateDesc_perm |].
  split; [apply orderByDateDesc_sorted |].
  split; [intros d; apply orderByDateDesc_stable |].
  repeat split. discriminate.
Qed.

(** X7: a valid submission puts its row into the SELECT of the table below
    the rows whose date text is equal or greater and above the rows whose
    date text is less; the rows the SELECT held before keep their order. *)
Theorem new_row_position (now : Z) (t : Table) (st : State) :
  validSubmission st ->
  let r := newExpense now t st in
  exists l1 l2,
    orderByDateDesc (rows t) = l1 ++ l2
    /\ expenses (out_state (addExpense now (Some t) st)) = l1 ++ r :: l2
    /\ Forall (fun x => str_ltb (date x) (date r) = false) l1
    /\ Forall (fun x => str_ltb (date x) (date r) = true) l2.
Proof.
  intros V r. rewrite (addExpense_accepted now t st V). cbn [out_state expenses].
  apply orderByDateDesc_snoc.
Qed.

End ListPlaces.

(** * The views *)

Section Views.

Variable LocalTZA : Z -> bool -> Z.
Variable legacyParse : jsstring -> timevalue.

(** [weekAgo] lies between five and nine days back. *)
Lemma weekAgo_bounds (now : Z) :
  zoneWithinDay LocalTZA ->
  let wk := UTC LocalTZA (LocalTime LocalTZA now - 7 * msPerDay) in
  now - 9 * msPerDay < wk < now - 5 * msPerDay
  /\ (Day (LocalTime LocalTZA now) - 8) * msPerDay < wk
     < (Day (LocalTime LocalTZA now) - 5) * msPerDay.
Proof.
  intros ZW wk. subst wk.
  pose proof (ZW now true) as B1.
  pose proof (ZW (LocalTime LocalTZA now - 7 * msPerDay) false) as B2.
  pose proof (Day_TimeWithinDay (LocalTime LocalTZA now)) as E.
  pose proof (TimeWithinDay_range (LocalTime LocalTZA now)) as R.
  unfold UTC. revert B2 E R.
  generalize (LocalTZA (LocalTime LocalTZA now - 7 * msPerDay) false).
  generalize (TimeWithinDay (LocalTime LocalTZA now)).
  generalize (Day (LocalTime LocalTZA now)).
  unfold LocalTime. revert B1. generalize (LocalTZA now true).
  unfold MakeDate, msPerDay. intros. lia.
Qed.

(** [monthAgo] lies between 26 and 33 days back. *)
Lemma monthAgo_bounds (now : Z) :
  zoneWithinDay LocalTZA ->
  let mo :=
    UTC LocalTZA
      (MakeDate (monthAgoDay LocalTZA now)
         (TimeWithinDay (LocalTime LocalTZA now))) in
  now - 33 * msPerDay < mo < now - 26 * msPerDay
  /\ (Day (LocalTime LocalTZA now) - 32) * msPerDay < mo
     < (Day (LocalTime LocalTZA now) - 26) * msPerDay.
Proof.
  intros ZW mo. subst mo.
  pose proof (ZW now true) as B1.
  pose proof (ZW (MakeDate (monthAgoDay LocalTZA now)
                    (TimeWithinDay (LocalTime LocalTZA now))) false) as B2.
  pose proof (Day_TimeWithinDay (LocalTime LocalTZA now)) as E.
  pose proof (TimeWithinDay_range (LocalTime LocalTZA now)) as R.
  pose proof (monthAgoDay_range LocalTZA now) as MR.
  unfold UTC. revert B2 E R MR.
  generalize (LocalTZA (MakeDate (monthAgoDay LocalTZA now)
                          (TimeWithinDay (LocalTime LocalTZA now))) false).
  generalize (monthAgoDay LocalTZA now).
  generalize (TimeWithinDay (LocalTime LocalTZA now)).
  generalize (Day (LocalTime LocalTZA now)).
  unfold LocalTime. revert B1. generalize (LocalTZA now true).
  unfold MakeDate, msPerDay. intros. lia.
Qed.

Lemma TimeClip_in_range (t : Z) : validTime t -> TimeClip t = Some t.
Proof.
  unfold validTime, TimeClip. intros V.
  destruct (Z.leb_spec (Z.abs t) maxTime); [reflexivity | lia].
Qed.

(** The test of the 'week' and of the 'month' view on a row, for a clock
    reading since the epoch. *)
Lemma keep_week_iff (now : Z) (r : Row) :
  0 <= now <= maxTime ->
  zoneWithinDay LocalTZA ->
  keepExpense LocalTZA legacyParse (Some now) (js "week") r = true
  <-> exists e,
        Date_parse legacyParse (date r) = Some e
        /\ UTC LocalTZA (LocalTime LocalTZA now - 7 * msPerDay) <= e.
Proof.
  intros N ZW.
  rewrite keepExpense_week by (unfold validTime, maxTime in *; lia).
  pose proof (weekAgo_bounds now ZW) as [B _]. cbv zeta in B.
  rewrite TimeClip_in_range
    by (unfold validTime, maxTime, msPerDay in *; lia).
  destruct (Date_parse legacyParse (date r)) as [e |]; cbn [date_geb].
  - rewrite Z.leb_le. split; [eauto |]. intros (e' & E & L).
    injection E as <-. exact L.
  - split; [discriminate |]. intros (e' & E & _). discriminate.
Qed.

Lemma keep_month_iff (now : Z) (r : Row) :
  0 <= now <= maxTime ->
  zoneWithinDay LocalTZA ->
  keepExpense LocalTZA legacyParse (Some now) (js "month") r = true
  <-> exists e,
        Date_parse legacyParse (date r) = Some e
        /\ UTC LocalTZA
             (MakeDate (monthAgoDay LocalTZA now)
                (TimeWithinDay (LocalTime LocalTZA now))) <= e.
Proof.
  intros N ZW.
  rewrite keepExpense_month by (unfold validTime, maxTime in *; lia).
  pose proof (monthAgo_bounds now ZW) as [B _]. cbv zeta in B.
  rewrite TimeClip_in_range
    by (unfold validTime, maxTime, msPerDay in *; lia).
  destruct (Date_parse legacyParse (date r)) as [e |]; cbn [date_geb].
  - rewrite Z.leb_le. split; [eauto |]. intros (e' & E & L).
    injection E as <-. exact L.
  - split; [discriminate |]. intros (e' & E & _). discriminate.
Qed.

Lemma view_In (now : Z) (f : jsstring) (st : State) (r : Row) :
  In r (getFilteredExpenses LocalTZA legacyParse now (setDateFilter f st))
  <-> In r (expenses st)
      /\ keepExpense LocalTZA legacyParse (Some now) f r = true.
Proof. unfold getFilteredExpenses, setDateFilter. cbn. apply filter_In. Qed.

(** X8: the views nest: a row shown under 'week' is shown under 'month',
    and a row shown under 'month' is one of the list. *)
Theorem views_nest (now : Z) (st : State) (r : Row) :
  0 <= now <= maxTime ->
  zoneWithinDay LocalTZA ->
  (In r (getFilteredExpenses LocalTZA legacyParse now
           (setDateFilter (js "week") st)) ->
   In r (getFilteredExpenses LocalTZA legacyParse now
           (setDateFilter (js "month") st)))
  /\ (In r (getFilteredExpenses LocalTZA legacyParse now
              (setDateFilter (js "month") st)) ->
      In r (getFilteredExpenses LocalTZA legacyParse now
              (setDateFilter (js "all") st))).
Proof.
  intros N ZW. rewrite !view_In. split.
  - intros [I K]. split; [exact I |].
    apply (keep_week_iff now r N ZW) in K. destruct K as (e & E & L).
    apply (keep_month_iff now r N ZW). exists e. split; [exact E |].
    pose proof (weekAgo_bounds now ZW) as [B1 _].
    pose proof (monthAgo_bounds now ZW) as [B2 _].
    cbv zeta in *. unfold msPerDay in *. lia.
  - intros [I _]. split; [exact I | reflexivity].
Qed.

(** X9: what the views are sure to show: a row stored at most 5 days before
    today is in the 'week' view, a row stored at most 26 days before today
    is in the 'month' view. *)
Theorem recent_rows_shown (now t0 : Z) (st : State) (r : Row) :
  In r (expenses st) ->
  date r = todayString t0 ->
  validTime t0 ->
  0 <= now <= maxTime ->
  zoneWithinDay LocalTZA ->
  let today := Day (LocalTime LocalTZA now) in
  (today - 5 <= Day t0 ->
   In r (getFilteredExpenses LocalTZA legacyParse now
           (setDateFilter (js "week") st)))
  /\ (today - 26 <= Day t0 ->
      In r (getFilteredExpenses LocalTZA legacyParse now
              (setDateFilter (js "month") st))).
Proof.
  intros I D V N ZW today. rewrite !view_In.
  pose proof (Date_parse_stored legacyParse t0 V) as P. rewrite <- D in P.
  pose proof (weekAgo_bounds now ZW) as [_ B1].
  pose proof (monthAgo_bounds now ZW) as [_ B2].
  cbv zeta in *. fold today in B1, B2. clearbody today.
  split; intros H; (split; [exact I |]).
  - apply (keep_week_iff now r N ZW). eexists. split; [exact P |].
    clear - B1 H. revert B1.
    generalize (UTC LocalTZA (LocalTime LocalTZA now - 7 * msPerDay)).
    revert H. generalize (Day t0).
    unfold MakeDate, msPerDay. intros. lia.
  - apply (keep_month_iff now r N ZW). eexists. split; [exact P |].
    clear - B2 H. revert B2.
    generalize (UTC LocalTZA
                  (MakeDate (monthAgoDay LocalTZA now)
                     (TimeWithinDay (LocalTime LocalTZA now)))).
    revert H. generalize (Day t0).
    unfold MakeDate, msPerDay. intros. lia.
Qed.

(** X10: an expense just added is on the screen whatever the filter: for
    four days after a valid submission its row is in the view of every
    selector. *)
Theorem added_row_shown (now now' : Z) (t : Table) (st : State)
    (f : jsstring) :
  validSubmission st ->
  0 <= now <= now' ->
  now' <= now + 4 * msPerDay ->
  now' <= maxTime ->
  zoneWithinDay LocalTZA ->
  In (newExpense now t st)
    (getFilteredExpenses LocalTZA legacyParse now'
       (setDateFilter f (out_state (addExpense now (Some t) st)))).
Proof.
  intros V T T' M ZW. rewrite view_In.
  rewrite (addExpense_accepted now t st V). cbn [out_state expenses].
  split.
  - apply (Permutation_in _ (Permutation_sym (orderByDateDesc_perm _))).
    apply in_or_app. right. left. reflexivity.
  - assert (N : 0 <= now' <= maxTime) by lia.
    assert (P : Date_parse legacyParse (date (newExpense now t st))
                = Some (MakeDate (Day now) 0)).
    { apply Date_parse_stored. unfold validTime, maxTime in *. lia. }
    pose proof (weekAgo_bounds now' ZW) as [B1 _].
    pose proof (monthAgo_bounds now' ZW) as [B2 _].
    pose proof (Day_TimeWithinDay now) as E.
    pose proof (TimeWithinDay_range now) as R.
    cbv zeta in *.
    destruct (list_eq_dec Z.eq_dec f (js "week")) as [-> | NW].
    + apply (keep_week_iff now' _ N ZW). eexists. split; [exact P |].
      clear - B1 E R T T'. revert B1.
      generalize (UTC LocalTZA (LocalTime LocalTZA now' - 7 * msPerDay)).
      revert E R. generalize (TimeWithinDay now). generalize (Day now).
      revert T'. unfold MakeDate, msPerDay. intros. lia.
    + destruct (list_eq_dec Z.eq_dec f (js "month")) as [-> | NM].
      * apply (keep_month_iff now' _ N ZW). eexists. split; [exact P |].
        clear - B2 E R T T'. revert B2.
        generalize (UTC LocalTZA
                      (MakeDate (monthAgoDay LocalTZA now')
                         (TimeWithinDay (LocalTime LocalTZA now')))).
        revert E R. generalize (TimeWithinDay now). generalize (Day now).
        revert T'. unfold MakeDate, msPerDay. intros. lia.
      * unfold keepExpense. apply str_eqb_neq in NW. apply str_eqb_neq in NM.
        rewrite NW, NM. destruct (str_eqb f (js "all")); reflexivity.
Qed.

End Views.

(** * The handlers together *)

Section HandlersTogether.

(** X11: [addExpense] either stores the row, clears the form and raises no
    alert, or raises one alert and changes nothing at all, be it for the
    input or for a store without the table. *)
Theorem addExpense_outcome (now : Z) (db : DB) (st : State) :
  let o := addExpense now db st in
  (exists t,
     db = Some t /\ validSubmission st /\ out_alerts o = []
     /\ dbRows (out_db o) = rows t ++ [newExpense now t st]
     /\ amountText (out_state o) = [] /\ categoryText (out_state o) = []
     /\ noteText (out_state o) = []
     /\ dateFilter (out_state o) = dateFilter st)
  \/ (exists m, out_alerts o = [m] /\ out_db o = db /\ out_state o = st).
Proof.
  intros o. subst o.
  destruct (validSubmission_dec st) as [V | [B | B]].
  - destruct db as [t |].
    + left. exists t. rewrite (addExpense_accepted now t st V).
      cbn. repeat split. exact (proj1 V). exact (proj2 V).
    + right. rewrite (addExpense_no_table now st V). cbn. eauto.
  - right. rewrite (addExpense_bad_amount now db st B). cbn. eauto.
  - right. destruct (addExpense_bad_category now db st B) as [m ->].
    cbn. eauto.
Qed.

(** X12: deleting an id the store does not hold changes no row, so deleting
    an id a second time changes no row either. *)
Theorem delete_absent_id (i : Z) (db : DB) (st st' : State) :
  ((forall r, In r (dbRows db) -> id r <> i) ->
   dbRows (out_db (deleteExpense i db st)) = dbRows db)
  /\ dbRows (out_db (deleteExpense i (out_db (deleteExpense i db st)) st'))
     = dbRows (out_db (deleteExpense i db st)).
Proof.
  assert (A : forall d s,
            (forall r, In r (dbRows d) -> id r <> i) ->
            dbRows (out_db (deleteExpense i d s)) = dbRows d).
  { intros d s H. destruct d as [t |]; [| reflexivity]. cbn in *.
    apply filter_all. intros r I. apply negb_true_iff, Z.eqb_neq, H, I. }
  split; [apply A |]. apply A. intros r I.
  destruct db as [t |]; cbn in I; [| contradiction].
  apply filter_In in I. destruct I as [_ I].
  apply negb_true_iff, Z.eqb_neq in I. exact I.
Qed.

(** X13: deleting the row a valid submission has just added leaves the rows
    the store had before the submission. *)
Theorem delete_undoes_add (now : Z) (t : Table) (st st' : State) :
  validSubmission st ->
  let o := addExpense now (Some t) st in
  dbRows (out_db (deleteExpense (id (newExpense now t st)) (out_db o) st'))
  = rows t.
Proof.
  intros V o. subst o. rewrite (addExpense_accepted now t st V).
  cbn [out_db deleteExpense deleteWhereId table bind loadExpenses selectAll
       dbRows rows].
  rewrite filter_app. cbn [filter]. rewrite Z.eqb_refl. cbn [negb].
  rewrite app_nil_r. apply filter_all. intros r I.
  apply maxId_ge in I. apply negb_true_iff, Z.eqb_neq.
  rewrite newExpense_id. lia.
Qed.

(** X14: ids start again with every launch: whatever the store held, the
    first row added after a launch has id 1. *)
Theorem ids_restart_after_launch (db : DB) (now : Z) (st : State) :
  validSubmission st ->
  let o := launch db in
  dbRows (out_db (addExpense now (out_db o) st))
  = [newExpense now (mkTable [] 0) st]
  /\ id (newExpense now (mkTable [] 0) st) = 1.
Proof.
  intros V o. subst o. cbn [launch setup dropTable createTable loadExpenses
    selectAll table bind out_db rows].
  rewrite (addExpense_accepted now (mkTable [] 0) st V). split; reflexivity.
Qed.

Lemma trimStart_shape (s : jsstring) :
  exists w, s = w ++ trimStart s /\ allWhiteSpace w.
Proof.
  induction s as [| c s (w & E & A)]; simpl.
  - exists []. split; [reflexivity | constructor].
  - destruct (isWhiteSpace c) eqn:W.
    + exists (c :: w). split; [simpl; f_equal; exact E |].
      constructor; assumption.
    + exists []. split; [reflexivity | constructor].
Qed.

Lemma allWhiteSpace_rev (w : jsstring) : allWhiteSpace w -> allWhiteSpace (rev w).
Proof. apply Forall_rev. Qed.

Lemma trim_shape (s : jsstring) :
  exists w1 w2,
    s = w1 ++ trim s ++ w2 /\ allWhiteSpace w1 /\ allWhiteSpace w2.
Proof.
  destruct (trimStart_shape s) as (w1 & E1 & A1).
  destruct (trimStart_shape (rev (trimStart s))) as (w2 & E2 & A2).
  exists w1, (rev w2). split; [| split; [exact A1 | apply Forall_rev, A2]].
  unfold trim, trimEnd. rewrite <- rev_app_distr, <- E2, rev_involutive.
  exact E1.
Qed.

Lemma trimStart_first (s : jsstring) :
  match trimStart s with
  | c :: _ => isWhiteSpace c = false
  | [] => True
  end.
Proof.
  destruct (trimStart_head s) as [-> | (c & r & -> & W)]; auto.
Qed.

Lemma trim_ends (s : jsstring) :
  match trim s with
  | c :: _ => isWhiteSpace c = false
  | [] => True
  end
  /\ match rev (trim s) with
     | c :: _ => isWhiteSpace c = false
     | [] => True
     end.
Proof.
  split.
  - pose proof (trimStart_first (trim s)) as H.
    replace (trimStart (trim s)) with (trim s) in H; [exact H |].
    unfold trim. destruct (trimStart_head s) as [-> | (c & r & -> & W)];
      [reflexivity |].
    rewrite (trimEnd_cons c r W). simpl. rewrite W. reflexivity.
  - unfold trim, trimEnd. rewrite rev_involutive. apply trimStart_first.
Qed.

(** X15: the category a valid submission stores is the text typed without
    the white space around it: the typed text is white space, the stored
    category, white space, and the stored category neither begins nor ends
    with white space.  The same holds of a stored note. *)
Theorem stored_text_is_trimmed_input (now : Z) (t : Table) (st : State) :
  validSubmission st ->
  exists r w1 w2 v1 v2,
    dbRows (out_db (addExpense now (Some t) st)) = rows t ++ [r]
    /\ categoryText st = w1 ++ category r ++ w2
    /\ allWhiteSpace w1 /\ allWhiteSpace w2
    /\ (forall c k, category r = c :: k -> isWhiteSpace c = false)
    /\ (forall c k, rev (category r) = c :: k -> isWhiteSpace c = false)
    /\ noteText st
       = v1 ++ match note r with Some n => n | None => [] end ++ v2
    /\ allWhiteSpace v1 /\ allWhiteSpace v2
    /\ (forall n c k, note r = Some n -> n = c :: k -> isWhiteSpace c = false)
    /\ (forall n c k,
          note r = Some n -> rev n = c :: k -> isWhiteSpace c = false).
Proof.
  intros V. rewrite (addExpense_accepted now t st V). cbn [out_db dbRows rows].
  destruct (trim_shape (categoryText st)) as (w1 & w2 & E & A1 & A2).
  destruct (trim_shape (noteText st)) as (v1 & v2 & F & B1 & B2).
  destruct (trim_ends (categoryText st)) as [C1 C2].
  destruct (trim_ends (noteText st)) as [N1 N2].
  exists (newExpense now t st), w1, w2, v1, v2.
  cbn [newExpense category note].
  split; [reflexivity |]. split; [exact E |]. split; [exact A1 |].
  split; [exact A2 |].
  split; [intros c k H; rewrite H in C1; exact C1 |].
  split; [intros c k H; rewrite H in C2; exact C2 |].
  split.
  { destruct (trim (noteText st)) eqn:T; cbn [truthy]; exact F. }
  split; [exact B1 |]. split; [exact B2 |].
  destruct (trim (noteText st)) as [| a b] eqn:T; cbn [truthy].
  - split; intros; discriminate.
  - split; intros n c k H1 H2; injection H1 as <-.
    + injection H2 as <- _. exact N1.
    + rewrite H2 in N2. exact N2.
Qed.

Lemma binary_round_aux_signed (m e : Z) (l : location) :
  let x := binary_round_aux prec emax true m e l in
  isNaN x || num_leb x zero = true.
Proof.
  unfold binary_round_aux.
  destruct (shr_fexp prec emax m e l) as [mrs' e'].
  destruct (shr_fexp prec emax _ e' loc_Exact) as [mrs'' e''].
  destruct (shr_m mrs'') as [| p | p]; try reflexivity.
  destruct (e'' <=? emax - prec); reflexivity.
Qed.

Lemma number_of_decimal_signed (m e : Z) :
  let x := number_of_decimal true m e in
  isNaN x || num_leb x zero = true.
Proof.
  unfold number_of_decimal. destruct m as [| p | p]; try reflexivity.
  destruct (0 <=? e).
  - unfold binary_round. destruct (shl_align _ _ _) as [mz ez].
    apply binary_round_aux_signed.
  - destruct (SFdiv_core_binary prec emax (Z.pos p) 0 (10 ^ (- e)) 0)
      as [[q e'] l].
    apply binary_round_aux_signed.
Qed.

Lemma parseUnsigned_signed (r : jsstring) :
  let x := parseUnsigned true r in
  isNaN x || num_leb x zero = true.
Proof.
  unfold parseUnsigned.
  destruct (startsWith (js "Infinity") r); [reflexivity |].
  destruct (takeDigits r) as [ip r1].
  match goal with
  | |- context [let '(fp, r3) := ?x in _] => destruct x as [fp r3]
  end.
  destruct ip, fp; try reflexivity; apply number_of_decimal_signed.
Qed.

(** X16: an amount typed with a minus sign is never stored: whatever
    follows the sign, the submission is turned down as not a valid
    amount. *)
Theorem minus_sign_rejected (now : Z) (db : DB) (st : State) (r : jsstring) :
  trimStart (amountText st) = 45 :: r ->
  let o := addExpense now db st in
  out_db o = db /\ out_state o = st
  /\ out_alerts o = [js "Please enter a valid amount"].
Proof.
  intros H o. subst o.
  rewrite (addExpense_bad_amount now db st); [cbn; auto |].
  apply orb_true_iff. unfold parseFloat. rewrite H.
  change (45 =? 43) with false. change (45 =? 45) with true. cbv iota.
  apply parseUnsigned_signed.
Qed.

End HandlersTogether.

(** * Dates on the screen *)

Section DatesOnScreen.

Lemma padDigits_length (w : nat) : forall n, List.length (padDigits w n) = w.
Proof.
  induction w as [| w IH]; intros n; cbn [padDigits]; [reflexivity |].
  rewrite length_app, IH. simpl. lia.
Qed.

Lemma DateFromTime_in_month (t : Z) :
  DateFromTime t <= DaysInMonth (MonthFromTime t) (InLeapYear t).
Proof.
  unfold DateFromTime, MonthFromTime.
  pose proof (DayWithinYear_range t) as R.
  destruct (InLeapYear_cases t) as [[E _] | [E _]]; rewrite E in *;
    repeat match goal with
           | |- context [if ?a <? ?b then _ else _] =>
               destruct (Z.ltb_spec a b)
           end; cbn; lia.
Qed.

(** X17: in a four-digit year the date stored is ten code units,
    YYYY-MM-DD, whose year, month and day are those of the UTC day of the
    clock: a month of 01 to 12, a day the month has, and together the day
    number of the clock. *)
Theorem stored_date_format (t : Z) :
  fourDigitYear t ->
  let Y := YearFromTime t in
  let M := MonthFromTime t + 1 in
  let D := DateFromTime t in
  todayString t
  = padDigits 4 Y ++ [45] ++ padDigits 2 M ++ [45] ++ padDigits 2 D
  /\ List.length (todayString t) = 10%nat
  /\ 0 <= Y <= 9999 /\ 1 <= M <= 12
  /\ 1 <= D <= DaysInMonth (M - 1) (InLeapYear t)
  /\ MakeDay Y (M - 1) D = Day t.
Proof.
  intros F Y M D.
  pose proof (fourDigitYear_range t F) as RY. fold Y in RY.
  pose proof (MonthFromTime_range t) as RM.
  pose proof (DateFromTime_range t) as RD. fold D in RD.
  pose proof (DateFromTime_in_month t) as RI. fold D in RI.
  assert (E : todayString t
              = padDigits 4 Y ++ [45] ++ padDigits 2 M ++ [45]
                ++ padDigits 2 D).
  { rewrite todayString_isoDatePart. unfold isoDatePart, isoYear. fold Y.
    destruct (Z.leb_spec 0 Y); [| lia].
    destruct (Z.leb_spec Y 9999); [| lia]. reflexivity. }
  split; [exact E |].
  split; [rewrite E, !length_app, !padDigits_length; reflexivity |].
  split; [exact RY |]. subst M. split; [lia |].
  replace (MonthFromTime t + 1 - 1) with (MonthFromTime t) by lia.
  split; [lia |]. apply MakeDay_fields.
Qed.

Lemma StronglySorted_weaken {A} (R S : A -> A -> Prop) (l : list A) :
  (forall a b, In a l -> In b l -> R a b -> S a b) ->
  StronglySorted R l -> StronglySorted S l.
Proof.
  intros W H. induction H as [| x l H IH F]; constructor.
  - apply IH. intros a b Ia Ib. apply W; right; assumption.
  - rewrite Forall_forall in *. intros y I. apply W; auto.
    + left. reflexivity.
    + right. exact I.
Qed.

Lemma notBefore_strongly (l : list Row) :
  Sorted notBefore l -> StronglySorted notBefore l.
Proof.
  apply Sorted_StronglySorted. intros a b c. unfold notBefore.
  apply str_geb_trans.
Qed.

(** X18: over a session whose clock stays in four-digit years the list on
    the screen runs from the newest day to the oldest: every row carries
    the date of a day, and no row is listed above a row stored on a later
    day. *)
Theorem session_newest_day_first (db : DB) (es : list Event) :
  Forall clockFourDigit es ->
  let l := expenses (out_state (session db es)) in
  Forall (fun r => exists d, storedOn r d) l /\ StronglySorted notOlder l.
Proof.
  intros F l.
  assert (S : inSync (out_db (session db es)) (out_state (session db es))).
  { unfold session.
    apply (run_invariant inSync (fun _ => True)).
    - intros e d st _. apply inSync_step.
    - clear. induction es; constructor; auto.
    - reflexivity. }
  assert (D : Forall (fun r => exists d, storedOn r d)
                (dbRows (out_db (session db es)))).
  { unfold session.
    apply (run_invariant
             (fun d _ => Forall (fun r => exists d, storedOn r d) (dbRows d))
             clockFourDigit).
    - intros e d st K H.
      destruct (handle_store e d st)
        as [E | [(now & t & -> & -> & V & E) | (i & t & -> & -> & E)]];
        rewrite E; auto; cbn [dbRows rows] in *.
      + apply Forall_app. split; auto. constructor; [| constructor].
        exists (Day now), now. split; [exact K |]. split; reflexivity.
      + rewrite Forall_forall in *. intros x I. apply filter_In in I.
        apply H, I.
    - exact F.
    - constructor. }
  unfold inSync in S. subst l. rewrite S.
  assert (D' : Forall (fun r => exists d, storedOn r d)
                 (orderByDateDesc (dbRows (out_db (session db es))))).
  { rewrite Forall_forall in *. intros x I. apply D.
    apply (Permutation_in _ (orderByDateDesc_perm _) I). }
  split; [exact D' |].
  apply (StronglySorted_weaken notBefore);
    [| apply notBefore_strongly, orderByDateDesc_sorted].
  intros a b _ _ N da db' (ta & Fa & Ea & <-) (tb & Fb & Eb & <-).
  unfold notBefore in N. rewrite Ea, Eb, (stored_dates_text_order ta tb Fa Fb) in N.
  apply Z.ltb_ge in N. exact N.
Qed.

End DatesOnScreen.

Section MonthAgo.

Variable LocalTZA : Z -> bool -> Z.
Variable legacyParse : jsstring -> timevalue.

(** X19: a row whose date [new Date] cannot read is shown under 'all' and
    under no other filter. *)
Theorem unparsable_date_only_under_all (now : Z) (st : State) (r : Row) :
  In r (expenses st) ->
  Date_parse legacyParse (date r) = None ->
  In r (getFilteredExpenses LocalTZA legacyParse now
          (setDateFilter (js "all") st))
  /\ ~ In r (getFilteredExpenses LocalTZA legacyParse now
               (setDateFilter (js "week") st))
  /\ ~ In r (getFilteredExpenses LocalTZA legacyParse now
               (setDateFilter (js "month") st)).
Proof.
  intros I P. rewrite !view_In. unfold keepExpense. rewrite P.
  replace (str_eqb (js "all") (js "all")) with true by reflexivity.
  replace (str_eqb (js "week") (js "all")) with false by reflexivity.
  replace (str_eqb (js "week") (js "week")) with true by reflexivity.
  replace (str_eqb (js "month") (js "all")) with false by reflexivity.
  replace (str_eqb (js "month") (js "week")) with false by reflexivity.
  replace (str_eqb (js "month") (js "month")) with true by reflexivity.
  cbn [date_geb]. repeat split; auto; intros [_ H]; discriminate.
Qed.

(** X20: the day the 'month' filter counts from.  When last month has
    today's day of the month, it is that day of last month; when last month
    is too short, it is a day of this month: today's day of the month less
    the length of last month. *)
Theorem month_ago_day_date (now : Z) :
  let l := LocalTime LocalTZA now in
  let ym := YearFromTime l + (MonthFromTime l - 1) / 12 in
  let mn := (MonthFromTime l - 1) mod 12 in
  let lastMonth := DaysInMonth mn (if DaysInYear ym =? 366 then 1 else 0) in
  let ago := MakeDate (monthAgoDay LocalTZA now) (TimeWithinDay l) in
  (DateFromTime l <= lastMonth ->
   YearFromTime ago = ym /\ MonthFromTime ago = mn
   /\ DateFromTime ago = DateFromTime l)
  /\ (lastMonth < DateFromTime l ->
      YearFromTime ago = YearFromTime l
      /\ MonthFromTime ago = MonthFromTime l
      /\ DateFromTime ago = DateFromTime l - lastMonth).
Proof.
  intros l ym mn lastMonth ago. split.
  - intros H. apply (monthAgoDay_civil LocalTZA now). exact H.
  - intros H.
    pose proof (MonthFromTime_range l) as RM.
    pose proof (DateFromTime_range l) as RD.
    assert (M1 : 1 <= MonthFromTime l).
    { destruct (Z.eq_dec (MonthFromTime l) 0) as [E | E]; [| lia].
      exfalso. subst lastMonth mn. rewrite E in H.
      change ((0 - 1) mod 12) with 11 in H. unfold DaysInMonth in H.
      cbn [Z.eqb Pos.eqb monthStart] in H.
      destruct (DaysInYear ym =? 366); lia. }
    assert (Q : (MonthFromTime l - 1) / 12 = 0)
      by (Z.to_euclidean_division_equations; lia).
    assert (Q' : mn = MonthFromTime l - 1)
      by (subst mn; Z.to_euclidean_division_equations; lia).
    assert (Q0 : MonthFromTime l / 12 = 0)
      by (Z.to_euclidean_division_equations; lia).
    assert (Q1 : MonthFromTime l mod 12 = MonthFromTime l)
      by (Z.to_euclidean_division_equations; lia).
    assert (Ey : ym = YearFromTime l) by (subst ym; lia).
    set (leap := if DaysInYear (YearFromTime l) =? 366 then 1 else 0).
    assert (Ll : lastMonth = DaysInMonth (MonthFromTime l - 1) leap)
      by (subst lastMonth leap; rewrite Q', Ey; reflexivity).
    assert (Lp : leap = 0 \/ leap = 1)
      by (subst leap; destruct (DaysInYear (YearFromTime l) =? 366); auto).
    assert (S : monthStart (MonthFromTime l) leap
                = monthStart (MonthFromTime l - 1) leap + lastMonth
                /\ 28 <= lastMonth
                /\ 28 <= DaysInMonth (MonthFromTime l) leap).
    { rewrite Ll. clearbody leap. clear - RM M1 Lp.
      generalize dependent (MonthFromTime l). intros m RM M1.
      unfold DaysInMonth, monthStart.
      repeat match goal with
             | |- context [?a =? ?b] => destruct (Z.eqb_spec a b); try lia
             end. }
    destruct S as (S1 & S2 & S3).
    assert (W : monthAgoDay LocalTZA now
                = MakeDay (YearFromTime l) (MonthFromTime l)
                    (DateFromTime l - lastMonth)).
    { unfold monthAgoDay. fold l. unfold MakeDay. rewrite Q, Q0, Q1.
      fold mn. rewrite Q', Z.add_0_r. fold leap. lia. }
    subst ago. rewrite W.
    pose proof (MakeDay_civil (YearFromTime l) (MonthFromTime l)
                  (DateFromTime l - lastMonth) (TimeWithinDay l)) as C.
    cbv zeta in C. rewrite Q0, Q1, Z.add_0_r in C. fold leap in C.
    apply C; [lia | apply TimeWithinDay_range].
Qed.

End MonthAgo.

(** * Deleting from the screen, and the views of a device in UTC *)

Section PressedRow.

Lemma insertDesc_first (r : Row) (l : list Row) :
  Forall (fun y => str_ltb (date r) (date y) = false) l ->
  insertDesc r l = r :: l.
Proof.
  destruct l as [| y l]; [reflexivity |]. intros F. inversion F; subst.
  simpl. rewrite H1. reflexivity.
Qed.

Lemma insertDesc_filter (f : Row -> bool) (r : Row) (l : list Row) :
  StronglySorted notBefore l ->
  filter f (insertDesc r l)
  = if f r then insertDesc r (filter f l) else filter f l.
Proof.
  induction 1 as [| x l S IH F]; simpl.
  - destruct (f r); reflexivity.
  - destruct (str_ltb (date r) (date x)) eqn:L; simpl.
    + rewrite IH. destruct (f x), (f r); simpl; rewrite ?L; reflexivity.
    + destruct (f r) eqn:Fr; [| reflexivity].
      destruct (f x); simpl; [rewrite L; reflexivity |].
      symmetry. apply insertDesc_first.
      rewrite Forall_forall in *. intros y I. apply filter_In in I.
      destruct I as [I _]. apply F in I. unfold notBefore in I.
      eapply str_geb_trans; eauto.
Qed.

(** The SELECT on a table with some rows gone is the SELECT with those rows
    gone. *)
Lemma orderByDateDesc_filter (f : Row -> bool) (l : list Row) :
  orderByDateDesc (filter f l) = filter f (orderByDateDesc l).
Proof.
  induction l as [| x l IH]; simpl; [reflexivity |].
  change (fold_right insertDesc [] l) with (orderByDateDesc l).
  rewrite insertDesc_filter
    by apply notBefore_strongly, orderByDateDesc_sorted.
  destruct (f x); simpl; rewrite ?IH; reflexivity.
Qed.

(** X21: the delete mark of a listed row removes that row and no other: the
    list after the press is the list before without the one entry, the
    other rows in their order. *)
Theorem pressed_delete_removes_its_row (db : DB) (es : list Event)
    (item : Row) :
  let o := session db es in
  In item (expenses (out_state o)) ->
  let o' := handle (PressDelete (id item)) (out_db o) (out_state o) in
  exists l1 l2,
    expenses (out_state o) = l1 ++ item :: l2
    /\ expenses (out_state o') = l1 ++ l2
    /\ ~ In item (l1 ++ l2)
    /\ dbRows (out_db o')
       = filter (fun r => negb (id r =? id item)) (dbRows (out_db o)).
Proof.
  intros o I o'.
  destruct (session_ids db es) as (t & Et & S & B). fold o in Et.
  assert (Y : inSync (out_db o) (out_state o)).
  { subst o. unfold session.
    apply (run_invariant inSync (fun _ => True)).
    - intros e d st _. apply inSync_step.
    - clear. induction es; constructor; auto.
    - reflexivity. }
  unfold inSync in Y. rewrite Et in Y. cbn [dbRows] in Y.
  assert (E' : expenses (out_state o')
               = filter (fun r => negb (id r =? id item))
                   (expenses (out_state o))).
  { subst o'. rewrite Et, Y. cbn. apply orderByDateDesc_filter. }
  assert (D' : dbRows (out_db o')
               = filter (fun r => negb (id r =? id item)) (dbRows (out_db o))).
  { subst o'. rewrite Et. reflexivity. }
  assert (U : forall x, In x (expenses (out_state o)) ->
                id x = id item -> x = item).
  { intros x Hx E. rewrite Y in Hx, I.
    apply (Permutation_in _ (orderByDateDesc_perm _)) in Hx.
    apply (Permutation_in _ (orderByDateDesc_perm _)) in I.
    eapply id_sorted_inj; eauto. }
  assert (N : NoDup (expenses (out_state o))).
  { rewrite Y.
    apply (Permutation_NoDup (Permutation_sym (orderByDateDesc_perm _))).
    apply (NoDup_map_inv id), id_sorted_NoDup, S. }
  destruct (in_split _ _ I) as (l1 & l2 & E).
  exists l1, l2. split; [exact E |].
  rewrite E in N. apply NoDup_remove in N. destruct N as [_ N].
  split; [| split; [exact N | exact D']].
  rewrite E', E, filter_app. cbn [filter]. rewrite Z.eqb_refl. cbn [negb].
  rewrite <- filter_app. apply filter_all. intros x Hx.
  apply negb_true_iff, Z.eqb_neq. intros Ex. apply N.
  replace item with x; [exact Hx |]. apply U; [| exact Ex].
  rewrite E. apply in_app_or in Hx. apply in_or_app.
  destruct Hx; [left | right; right]; assumption.
Qed.

End PressedRow.

Section UtcDevice.

Variable legacyParse : jsstring -> timevalue.

(** X22: on a device in UTC the 'week' view shows a stored row exactly when
    it was stored on one of the last seven days, today included, or, at
    midnight sharp, on the day before those; the 'month' view shows it
    exactly when it was stored after the month-ago day, or, at midnight
    sharp, on that day. *)
Theorem utc_views (now t0 : Z) (st : State) (r : Row) :
  In r (expenses st) ->
  date r = todayString t0 ->
  validTime t0 ->
  0 <= now <= maxTime ->
  (In r (getFilteredExpenses utcZone legacyParse now
           (setDateFilter (js "week") st))
   <-> Day now - 6 <= Day t0
       \/ (Day t0 = Day now - 7 /\ TimeWithinDay now = 0))
  /\ (In r (getFilteredExpenses utcZone legacyParse now
              (setDateFilter (js "month") st))
      <-> monthAgoDay utcZone now < Day t0
          \/ (Day t0 = monthAgoDay utcZone now /\ TimeWithinDay now = 0)).
Proof.
  intros I D V N. rewrite !view_In.
  pose proof (Date_parse_stored legacyParse t0 V) as P. rewrite <- D in P.
  pose proof (Day_TimeWithinDay now) as E.
  pose proof (TimeWithinDay_range now) as R.
  assert (L : LocalTime utcZone now = now) by (unfold LocalTime, utcZone; lia).
  split.
  - rewrite (keep_week_iff utcZone legacyParse now r N utcZone_within_day).
    rewrite P, L. unfold UTC, utcZone.
    revert E R. generalize (TimeWithinDay now). generalize (Day now).
    unfold MakeDate, msPerDay. intros T tod E R. split.
    + intros [_ (e & Q & H)]. injection Q as <-. lia.
    + intros H. split; [exact I |]. eexists. split; [reflexivity |]. lia.
  - rewrite (keep_month_iff utcZone legacyParse now r N utcZone_within_day).
    rewrite P, L. unfold UTC, utcZone.
    revert E R. generalize (monthAgoDay utcZone now).
    generalize (TimeWithinDay now). generalize (Day now).
    unfold MakeDate, msPerDay. intros T tod B E R. split.
    + intros [_ (e & Q & H)]. injection Q as <-. lia.
    + intros H. split; [exact I |]. eexists. split; [reflexivity |]. lia.
Qed.

End UtcDevice.

(** * What a submission stores *)

Section StoredFields.

Lemma allWhiteSpace_trimStart (s : jsstring) :
  allWhiteSpace s -> trimStart s = [].
Proof.
  induction 1 as [| c s W _ IH]; simpl; [reflexivity |].
  rewrite W. exact IH.
Qed.

(** Empty once trimmed: white space and nothing else. *)
Lemma allWhiteSpace_trim (s : jsstring) : allWhiteSpace s <-> trim s = [].
Proof.
  split.
  - intros A. unfold trim. rewrite (allWhiteSpace_trimStart s A). reflexivity.
  - intros E. destruct (trim_shape s) as (w1 & w2 & S & A1 & A2).
    rewrite E in S. rewrite S. apply Forall_app. split; assumption.
Qed.

Lemma todayString_same_day (t1 t2 : Z) :
  fourDigitYear t1 ->
  fourDigitYear t2 ->
  todayString t1 = todayString t2 <-> Day t1 = Day t2.
Proof.
  intros F1 F2.
  pose proof (stored_dates_text_order t1 t2 F1 F2) as A.
  pose proof (stored_dates_text_order t2 t1 F2 F1) as B.
  split.
  - intros E. rewrite E, str_ltb_irrefl in A, B.
    symmetry in A, B. apply Z.ltb_ge in A, B. lia.
  - intros E. apply str_ltb_total.
    + rewrite A. apply Z.ltb_ge. lia.
    + rewrite B. apply Z.ltb_ge. lia.
Qed.

(** C3: after a valid submission (an amount that parses to more than 0, a
    category not empty once trimmed) is added, loading the expenses yields a
    list that holds the new expense exactly once; it is the only row with
    the new id, an id no earlier row had.  Its date is the date part of the
    ISO string of the moment of the add, the UTC calendar day: read back it
    is UTC midnight of the UTC day the clock is in.  It is the current
    calendar day of the device, whatever its zone, exactly when the local
    day and the UTC day of that moment are the same day. *)
Theorem add_then_load (LocalTZA : Z -> bool -> Z)
    (legacyParse : jsstring -> timevalue) (now : Z) (t : Table) (st : State) :
  validSubmission st ->
  validTime now ->
  let o := addExpense now (Some t) st in
  let r := newExpense now t st in
  let localDay := Day (LocalTime LocalTZA now) in
  exists st',
    loadExpenses (out_db o) (out_state o) = Ok st'
    /\ (exists l1 l2,
          expenses st' = l1 ++ r :: l2 /\ ~ In r l1 /\ ~ In r l2)
    /\ filter (fun x => id x =? id r) (expenses st') = [r]
    /\ (forall x, In x (rows t) -> id x <> id r)
    /\ date r = isoDatePart now
    /\ Date_parse legacyParse (date r) = Some (MakeDate (Day now) 0)
    /\ (Date_parse legacyParse (date r) = Some (MakeDate localDay 0)
        <-> localDay = Day now)
    /\ (fourDigitYear now ->
        fourDigitYear (LocalTime LocalTZA now) ->
        (date r = localDateString LocalTZA now <-> localDay = Day now)).
Proof.
  intros V T o r localDay. subst o.
  rewrite (addExpense_accepted now t st V).
  fold r. cbn [out_db out_state]. unfold loadExpenses, selectAll, table, bind.
  cbn [rows]. eexists. split; [reflexivity |]. unfold setExpenses.
  cbn [expenses].
  assert (U : filter (fun x => id x =? id r) (orderByDateDesc (rows t ++ [r]))
              = [r]) by (apply fresh_id_unique; reflexivity).
  assert (P : Date_parse legacyParse (date r) = Some (MakeDate (Day now) 0))
    by (apply Date_parse_stored, T).
  split; [exact (selected_once _ _ _ U) |].
  split; [exact U |].
  split; [intros x I; apply maxId_ge in I; subst r; rewrite newExpense_id; lia |].
  split; [apply todayString_isoDatePart |].
  split; [exact P |].
  split.
  - rewrite P. clearbody localDay. generalize (Day now). intros d.
    unfold MakeDate, msPerDay. split.
    + intros E. injection E as E. lia.
    + intros ->. reflexivity.
  - intros F1 F2. unfold localDateString.
    rewrite <- todayString_isoDatePart.
    change (date r) with (todayString now).
    rewrite (todayString_same_day now (LocalTime LocalTZA now) F1 F2).
    subst localDay. split; intros E; symmetry; exact E.
Qed.

(** C5: [addExpense] rejects the submission when the category is white
    space and nothing else, that is, empty once trimmed: nothing is stored,
    the state stays, one alert is raised, the one asking for a category when
    the amount is in order.  When it stores a row, the text typed as
    category is white space, the stored category, white space; the stored
    category is not empty and neither begins nor ends with white space.  The
    text typed as note is white space, the stored note, white space, with a
    stored note that is not empty and neither begins nor ends with white
    space; or the typed note is all white space and the note is null.  In
    the terms of the code: the stored category is the trimmed text, not
    empty once trimmed, and the note is the trimmed note, or null when that
    is empty. *)
Theorem category_note_validation (now : Z) (db : DB) (st : State) :
  let o := addExpense now db st in
  (allWhiteSpace (categoryText st) ->
   out_db o = db /\ out_state o = st
   /\ (exists m, out_alerts o = [m])
   /\ (num_gtb (parseFloat (amountText st)) zero = true ->
       out_alerts o = [js "Please enter a category"]))
  /\ (dbRows (out_db o) = dbRows db
      \/ exists r w1 w2 v1 v2,
           dbRows (out_db o) = dbRows db ++ [r]
           /\ categoryText st = w1 ++ category r ++ w2
           /\ allWhiteSpace w1 /\ allWhiteSpace w2
           /\ category r <> []
           /\ (forall c k, category r = c :: k -> isWhiteSpace c = false)
           /\ (forall c k, rev (category r) = c :: k -> isWhiteSpace c = false)
           /\ allWhiteSpace v1 /\ allWhiteSpace v2
           /\ match note r with
              | Some n =>
                  noteText st = v1 ++ n ++ v2
                  /\ n <> []
                  /\ (forall c k, n = c :: k -> isWhiteSpace c = false)
                  /\ (forall c k, rev n = c :: k -> isWhiteSpace c = false)
              | None => noteText st = v1 ++ v2 /\ allWhiteSpace (noteText st)
              end
           /\ category r = trim (categoryText st)
           /\ trim (category r) <> []
           /\ note r
              = match trim (noteText st) with
                | [] => None
                | _ :: _ => Some (trim (noteText st))
                end).
Proof.
  intros o. split.
  - intros A. apply allWhiteSpace_trim in A. subst o. unfold addExpense.
    destruct (isNaN (parseFloat (amountText st))
              || num_leb (parseFloat (amountText st)) zero) eqn:B.
    + cbn [out_db out_state out_alerts]. repeat split; eauto.
      intros P. apply positive_iff in P. congruence.
    + rewrite A. cbn [truthy negb out_db out_state out_alerts].
      repeat split; eauto.
  - destruct (addExpense_rows now db st) as [S | (t & _ & V & S)]; auto.
    right.
    destruct (trim_shape (categoryText st)) as (w1 & w2 & E & A1 & A2).
    destruct (trim_shape (noteText st)) as (v1 & v2 & F & B1 & B2).
    destruct (trim_ends (categoryText st)) as [C1 C2].
    destruct (trim_ends (noteText st)) as [N1 N2].
    exists (newExpense now t st), w1, w2, v1, v2.
    split; [exact S |]. cbn [newExpense category note].
    split; [exact E |]. split; [exact A1 |]. split; [exact A2 |].
    split; [exact (proj2 V) |].
    split; [intros c k H; rewrite H in C1; exact C1 |].
    split; [intros c k H; rewrite H in C2; exact C2 |].
    split; [exact B1 |]. split; [exact B2 |].
    split.
    { destruct (trim (noteText st)) as [| a b] eqn:N; cbn [truthy].
      - split; [exact F |]. apply allWhiteSpace_trim, N.
      - split; [exact F |]. split; [discriminate |].
        split; intros c k H.
        + injection H as <- _. exact N1.
        + rewrite H in N2. exact N2. }
    split; [reflexivity |].
    split; [rewrite trim_idem; exact (proj2 V) |].
    destruct (trim (noteText st)); reflexivity.
Qed.

End StoredFields.

(** ** Worked instances of the session, list and view properties *)

Lemma sampleEvents_clock :
  Forall clockValid (sampleEvents ++ laterEvents)
  /\ Forall clockValid sampleEvents
  /\ Forall clockFourDigit sampleEvents.
Proof.
  unfold sampleEvents, laterEvents. cbn [app].
  repeat split;
    repeat (constructor;
            [first [ exact I
                   | cbn [clockValid clockFourDigit];
                     unfold validTime, fourDigitYear, maxTime,
                       noon_2024_03_15, msPerDay; lia ] |]);
    constructor.
Defined.


Lemma session_ids_never_reused_witness :
  In lunchRow (dbRows (out_db (session None sampleEvents)))
  /\ In lunchRow
       (dbRows (out_db (session None (sampleEvents ++ laterEvents))))
  /\ lunchRow = lunchRow.
Proof.
  assert (A : In lunchRow (dbRows (out_db (session None sampleEvents))))
    by (vm_compute; left; reflexivity).
  assert (B : In lunchRow
                (dbRows (out_db (session None (sampleEvents ++ laterEvents)))))
    by (vm_compute; left; reflexivity).
  split; [exact A |]. split; [exact B |].
  apply (session_ids_never_reused None sampleEvents laterEvents
           lunchRow lunchRow A B).
  reflexivity.
Defined.

Lemma stored_dates_order_witness :
  str_ltb (todayString (noon_2024_03_15 - 7 * msPerDay))
    (todayString noon_2024_03_15)
  = (Day (noon_2024_03_15 - 7 * msPerDay) <? Day noon_2024_03_15)
  /\ (todayString (noon_2024_03_15 - 7 * msPerDay)
      = todayString noon_2024_03_15
      <-> Day (noon_2024_03_15 - 7 * msPerDay) = Day noon_2024_03_15).
Proof.
  apply (stored_dates_order (noon_2024_03_15 - 7 * msPerDay)
           noon_2024_03_15);
    unfold fourDigitYear, noon_2024_03_15, msPerDay; lia.
Defined.

Lemma new_row_position_witness :
  let t := mkTable [expenseOn 1 "2024-03-16"; expenseOn 2 "2024-03-14"] 2 in
  let r := newExpense noon_2024_03_15 t (foodForm []) in
  exists l1 l2,
    orderByDateDesc (rows t) = l1 ++ l2
    /\ expenses (out_state (addExpense noon_2024_03_15 (Some t) (foodForm [])))
       = l1 ++ r :: l2
    /\ Forall (fun x => str_ltb (date x) (date r) = false) l1
    /\ Forall (fun x => str_ltb (date x) (date r) = true) l2.
Proof.
  intros t.
  exact (new_row_position noon_2024_03_15 t (foodForm []) (foodForm_valid [])).
Defined.

Lemma views_nest_witness :
  let st := viewOf [expenseOn 1 "2024-03-15"] "all" in
  let r := expenseOn 1 "2024-03-15" in
  (In r (getFilteredExpenses utcZone isoOnly noon_2024_03_15
           (setDateFilter (js "week") st)) ->
   In r (getFilteredExpenses utcZone isoOnly noon_2024_03_15
           (setDateFilter (js "month") st)))
  /\ (In r (getFilteredExpenses utcZone isoOnly noon_2024_03_15
              (setDateFilter (js "month") st)) ->
      In r (getFilteredExpenses utcZone isoOnly noon_2024_03_15
              (setDateFilter (js "all") st))).
Proof.
  intros st r.
  apply (views_nest utcZone isoOnly noon_2024_03_15 st r).
  - apply sample_valid_times.
  - apply utcZone_within_day.
Defined.

Lemma recent_rows_shown_witness :
  let r := expenseOn 1 "2024-03-10" in
  let st := viewOf [r] "all" in
  In r (getFilteredExpenses utcZone isoOnly noon_2024_03_15
          (setDateFilter (js "week") st))
  /\ In r (getFilteredExpenses utcZone isoOnly noon_2024_03_15
             (setDateFilter (js "month") st)).
Proof.
  intros r st.
  destruct
    (recent_rows_shown utcZone isoOnly noon_2024_03_15
       (noon_2024_03_15 - 5 * msPerDay) st r) as [A B].
  - left. reflexivity.
  - vm_compute. reflexivity.
  - unfold validTime, maxTime, noon_2024_03_15, msPerDay. lia.
  - apply sample_valid_times.
  - apply utcZone_within_day.
  - split; [apply A | apply B]; vm_compute; intros H; discriminate H.
Defined.

Lemma added_row_shown_witness :
  In (newExpense noon_2024_03_15 (mkTable [] 0) (foodForm []))
    (getFilteredExpenses utcZone isoOnly (noon_2024_03_15 + 3 * msPerDay)
       (setDateFilter (js "week")
          (out_state
             (addExpense noon_2024_03_15 (Some (mkTable [] 0))
                (foodForm []))))).
Proof.
  apply (added_row_shown utcZone isoOnly noon_2024_03_15
           (noon_2024_03_15 + 3 * msPerDay) (mkTable [] 0) (foodForm [])
           (js "week")).
  - apply foodForm_valid.
  - unfold noon_2024_03_15, msPerDay. lia.
  - unfold noon_2024_03_15, msPerDay. lia.
  - unfold noon_2024_03_15, msPerDay, maxTime. lia.
  - apply utcZone_within_day.
Defined.

Lemma delete_absent_id_witness :
  let db := Some (mkTable [expenseOn 1 "2024-03-15"] 1) in
  dbRows (out_db (deleteExpense 7 db (viewOf [expenseOn 1 "2024-03-15"] "all")))
  = dbRows db.
Proof.
  intros db.
  apply (proj1 (delete_absent_id 7 db
                  (viewOf [expenseOn 1 "2024-03-15"] "all")
                  (viewOf [expenseOn 1 "2024-03-15"] "all"))).
  intros r [<- | []]. vm_compute. intros H. discriminate H.
Defined.

Lemma delete_undoes_add_witness :
  let t := mkTable [expenseOn 1 "2024-03-14"] 1 in
  let o := addExpense noon_2024_03_15 (Some t) (foodForm []) in
  dbRows
    (out_db
       (deleteExpense (id (newExpense noon_2024_03_15 t (foodForm [])))
          (out_db o) (out_state o)))
  = rows t.
Proof.
  intros t o.
  exact (delete_undoes_add noon_2024_03_15 t (foodForm []) (out_state o)
           (foodForm_valid [])).
Defined.

Lemma ids_restart_after_launch_witness :
  let db := Some (mkTable [expenseOn 41 "2024-03-14"] 41) in
  dbRows (out_db (addExpense noon_2024_03_15 (out_db (launch db)) (foodForm [])))
  = [newExpense noon_2024_03_15 (mkTable [] 0) (foodForm [])]
  /\ id (newExpense noon_2024_03_15 (mkTable [] 0) (foodForm [])) = 1.
Proof.
  intros db.
  exact (ids_restart_after_launch db noon_2024_03_15 (foodForm [])
           (foodForm_valid [])).
Defined.

Lemma paddedForm_valid (l : list Row) : validSubmission (paddedForm l).
Proof. split; [vm_compute; reflexivity | vm_compute; discriminate]. Defined.

Lemma stored_text_is_trimmed_input_witness :
  exists r w1 w2 v1 v2,
    dbRows (out_db (addExpense noon_2024_03_15 (Some (mkTable [] 0))
                      (paddedForm [])))
    = rows (mkTable [] 0) ++ [r]
    /\ categoryText (paddedForm []) = w1 ++ category r ++ w2
    /\ allWhiteSpace w1 /\ allWhiteSpace w2
    /\ (forall c k, category r = c :: k -> isWhiteSpace c = false)
    /\ (forall c k, rev (category r) = c :: k -> isWhiteSpace c = false)
    /\ noteText (paddedForm [])
       = v1 ++ match note r with Some n => n | None => [] end ++ v2
    /\ allWhiteSpace v1 /\ allWhiteSpace v2
    /\ (forall n c k, note r = Some n -> n = c :: k -> isWhiteSpace c = false)
    /\ (forall n c k,
          note r = Some n -> rev n = c :: k -> isWhiteSpace c = false).
Proof.
  exact (stored_text_is_trimmed_input noon_2024_03_15 (mkTable [] 0)
           (paddedForm []) (paddedForm_valid [])).
Defined.

Lemma minus_sign_rejected_witness :
  let st := mkState [] (js " -5") (js "Food") [] (js "all") in
  let o := addExpense noon_2024_03_15 (Some (mkTable [] 0)) st in
  out_db o = Some (mkTable [] 0)
  /\ out_state o = st
  /\ out_alerts o = [js "Please enter a valid amount"].
Proof.
  intros st.
  apply (minus_sign_rejected noon_2024_03_15 (Some (mkTable [] 0)) st (js "5")).
  vm_compute. reflexivity.
Defined.

Lemma stored_date_format_witness :
  let t := noon_2024_03_15 in
  let Y := YearFromTime t in
  let M := MonthFromTime t + 1 in
  let D := DateFromTime t in
  todayString t
  = padDigits 4 Y ++ [45] ++ padDigits 2 M ++ [45] ++ padDigits 2 D
  /\ List.length (todayString t) = 10%nat
  /\ 0 <= Y <= 9999
  /\ 1 <= M <= 12
  /\ 1 <= D <= DaysInMonth (M - 1) (InLeapYear t)
  /\ MakeDay Y (M - 1) D = Day t.
Proof.
  intros t. apply (stored_date_format t).
  unfold fourDigitYear, t, noon_2024_03_15. lia.
Defined.

Lemma session_newest_day_first_witness :
  let l := expenses (out_state (session None sampleEvents)) in
  Forall (fun r => exists d, storedOn r d) l /\ StronglySorted notOlder l.
Proof.
  apply (session_newest_day_first None sampleEvents).
  apply sampleEvents_clock.
Defined.

Lemma unparsable_date_only_under_all_witness :
  let r := expenseOn 1 "someday" in
  let st := viewOf [r] "all" in
  In r (getFilteredExpenses utcZone isoOnly noon_2024_03_15
          (setDateFilter (js "all") st))
  /\ ~ In r (getFilteredExpenses utcZone isoOnly noon_2024_03_15
               (setDateFilter (js "week") st))
  /\ ~ In r (getFilteredExpenses utcZone isoOnly noon_2024_03_15
               (setDateFilter (js "month") st)).
Proof.
  intros r st.
  apply (unparsable_date_only_under_all utcZone isoOnly noon_2024_03_15 st r).
  - left. reflexivity.
  - vm_compute. reflexivity.
Defined.

(** On 2024-03-31 the 'month' filter counts from 2024-03-02: February 2024
    has 29 days. *)
Lemma month_ago_day_date_witness :
  let now := noon_2024_03_15 + 16 * msPerDay in
  let ago :=
    MakeDate (monthAgoDay utcZone now) (TimeWithinDay (LocalTime utcZone now)) in
  DateFromTime (LocalTime utcZone now) = 31
  /\ YearFromTime ago = YearFromTime (LocalTime utcZone now)
  /\ MonthFromTime ago = MonthFromTime (LocalTime utcZone now)
  /\ DateFromTime ago = DateFromTime (LocalTime utcZone now) - 29.
Proof.
  intros now ago.
  split; [vm_compute; reflexivity |].
  destruct (month_ago_day_date utcZone now) as [_ B].
  apply B. vm_compute. reflexivity.
Defined.

Lemma pressed_delete_removes_its_row_witness :
  let o := session None sampleEvents in
  let o' := handle (PressDelete (id lunchRow)) (out_db o) (out_state o) in
  exists l1 l2,
    expenses (out_state o) = l1 ++ lunchRow :: l2
    /\ expenses (out_state o') = l1 ++ l2
    /\ ~ In lunchRow (l1 ++ l2)
    /\ dbRows (out_db o')
       = filter (fun r => negb (id r =? id lunchRow)) (dbRows (out_db o)).
Proof.
  intros o.
  apply (pressed_delete_removes_its_row None sampleEvents lunchRow).
  vm_compute. right. left. reflexivity.
Defined.

Lemma utc_views_witness :
  let r := expenseOn 1 "2024-03-08" in
  let st := viewOf [r] "all" in
  let t0 := noon_2024_03_15 - 7 * msPerDay in
  (In r (getFilteredExpenses utcZone isoOnly noon_2024_03_15
           (setDateFilter (js "week") st))
   <-> Day noon_2024_03_15 - 6 <= Day t0
       \/ (Day t0 = Day noon_2024_03_15 - 7
           /\ TimeWithinDay noon_2024_03_15 = 0))
  /\ (In r (getFilteredExpenses utcZone isoOnly noon_2024_03_15
              (setDateFilter (js "month") st))
      <-> monthAgoDay utcZone noon_2024_03_15 < Day t0
          \/ (Day t0 = monthAgoDay utcZone noon_2024_03_15
              /\ TimeWithinDay noon_2024_03_15 = 0)).
Proof.
  intros r st t0.
  apply (utc_views isoOnly noon_2024_03_15 t0 st r).
  - left. reflexivity.
  - vm_compute. reflexivity.
  - apply sample_valid_times.
  - apply sample_valid_times.
Defined.

(** ** Worked instances of what a submission stores *)

(** On a device five hours behind UTC, at 20:00 on 2024-03-14, a valid
    submission is added and the expenses loaded: the one row listed carries
    the date 2024-03-15, while the current calendar day of the device is
    2024-03-14. *)
Lemma add_stores_utc_day_not_local_day :
  let tza := fixedZone (-18000000) in
  let st := foodForm [] in
  let o := addExpense evening_behind_utc (Some (mkTable [] 0)) st in
  let r := newExpense evening_behind_utc (mkTable [] 0) st in
  validSubmission st
  /\ (exists st',
        loadExpenses (out_db o) (out_state o) = Ok st'
        /\ expenses st' = [r])
  /\ date r = js "2024-03-15"
  /\ localDateString tza evening_behind_utc = js "2024-03-14"
  /\ getDate tza (Some evening_behind_utc) = Some 14
  /\ date r <> localDateString tza evening_behind_utc.
Proof.
  split; [apply foodForm_valid |].
  split; [eexists; split; vm_compute; reflexivity |].
  split; [vm_compute; reflexivity |].
  split; [vm_compute; reflexivity |].
  split; [vm_compute; reflexivity |].
  vm_compute. discriminate.
Qed.

(** At noon UTC on 2024-03-15 the same device is on the same day as UTC:
    the date stored is its current calendar day. *)
Lemma add_then_load_witness :
  let tza := fixedZone (-18000000) in
  let o := addExpense noon_2024_03_15 (Some (mkTable [] 0)) (foodForm []) in
  exists st',
    loadExpenses (out_db o) (out_state o) = Ok st'
    /\ expenses st' = [expenseOn 1 "2024-03-15"]
    /\ date (expenseOn 1 "2024-03-15") = localDateString tza noon_2024_03_15.
Proof.
  intros tza o.
  destruct
    (add_then_load tza isoOnly noon_2024_03_15 (mkTable [] 0) (foodForm [])
       (foodForm_valid []) (proj1 sample_valid_times))
    as (st' & L & _ & _ & _ & _ & _ & _ & D).
  exists st'. split; [exact L |].
  vm_compute in L. injection L as <-.
  split; [reflexivity |].
  apply D.
  - unfold fourDigitYear, noon_2024_03_15. lia.
  - unfold fourDigitYear, LocalTime, tza, fixedZone, noon_2024_03_15. lia.
  - vm_compute. reflexivity.
Defined.

(** A category of three blanks is turned down; a category and a note typed
    with white space around them are stored without it. *)
Lemma category_note_validation_witness :
  let db := Some (mkTable [] 0) in
  let o := addExpense noon_2024_03_15 db (blankCategoryForm []) in
  let o' := addExpense noon_2024_03_15 db (paddedForm []) in
  (out_db o = db /\ out_state o = blankCategoryForm []
   /\ out_alerts o = [js "Please enter a category"])
  /\ exists r,
       dbRows (out_db o') = [r]
       /\ category r = js "Food" /\ note r = Some (js "lunch").
Proof.
  intros db o o'. split.
  - destruct (proj1 (category_note_validation noon_2024_03_15 db
                       (blankCategoryForm [])))
      as (A & B & _ & C).
    + repeat constructor.
    + split; [exact A |]. split; [exact B |]. apply C.
      vm_compute. reflexivity.
  - destruct (proj2 (category_note_validation noon_2024_03_15 db
                       (paddedForm [])))
      as [S | (r & w1 & w2 & v1 & v2 & S & _ & _ & _ & _ & _ & _ & _ & _ & _
               & C & _ & N)].
    + vm_compute in S. discriminate S.
    + exists r. split; [exact S |]. split.
      * rewrite C. vm_compute. reflexivity.
      * rewrite N. vm_compute. reflexivity.
Defined.
